(** * Beast: completion-token resolution (async_result / async_completion)

    A shallow embedding of the two headers of the repository that define
    [beast::async_result], [beast::async_completion] and the macros
    [BEAST_INITFN_RESULT_TYPE] / [BEAST_HANDLER_TYPE]:

    - [Older]: include/beast/core/async_result.hpp
    - [Newer]: the revised header (unnamed/part_000)

    The headers are template code.  A C++ type is a term of [type]; a
    template is a function from its type arguments to the outcome of its
    instantiation ([compile]: a diagnostic or the instantiated entity);
    a constructor is a state transformer over a [store] of objects. *)

From Stdlib Require Import List String Bool Arith Lia.
Import ListNotations.
Open Scope string_scope.
Open Scope list_scope.

Set Warnings "-register-all".

(** ** C++ types *)

Record cv := CV { is_const : bool; is_volatile : bool }.

Definition unqualified : cv := CV false false.
Definition const_q : cv := CV true false.
Definition volatile_q : cv := CV false true.

(** Qualifiers sit on the type they qualify.  A reference and a function
    type have none; an array has the qualifiers of its element. *)
Inductive type : Type :=
| Void (q : cv)
| Named (q : cv) (name : string)          (* class, closure or scalar type *)
| Pointer (q : cv) (pointee : type)
| LRef (referred : type)                  (* T&  *)
| RRef (referred : type)                  (* T&& *)
| Array (element : type) (bound : nat)    (* T[N] *)
| Function (ret : type) (params : list type).   (* R(A...) *)

Definition cv_eqb (a b : cv) : bool :=
  Bool.eqb (is_const a) (is_const b) && Bool.eqb (is_volatile a) (is_volatile b).

Fixpoint type_eqb (a b : type) {struct a} : bool :=
  match a, b with
  | Void q, Void q' => cv_eqb q q'
  | Named q n, Named q' n' => cv_eqb q q' && String.eqb n n'
  | Pointer q t, Pointer q' t' => cv_eqb q q' && type_eqb t t'
  | LRef t, LRef t' => type_eqb t t'
  | RRef t, RRef t' => type_eqb t t'
  | Array t n, Array t' n' => type_eqb t t' && Nat.eqb n n'
  | Function r ps, Function r' ps' =>
      type_eqb r r' &&
      (fix params_eqb (l l' : list type) {struct l} : bool :=
         match l, l' with
         | [], [] => true
         | x :: m, x' :: m' => type_eqb x x' && params_eqb m m'
         | _, _ => false
         end) ps ps'
  | _, _ => false
  end.

(** Induction over a type and, for a function, over each parameter. *)
Section TypeInduction.
Variable P : type -> Prop.
Hypothesis HVoid : forall q, P (Void q).
Hypothesis HNamed : forall q n, P (Named q n).
Hypothesis HPointer : forall q t, P t -> P (Pointer q t).
Hypothesis HLRef : forall t, P t -> P (LRef t).
Hypothesis HRRef : forall t, P t -> P (RRef t).
Hypothesis HArray : forall t n, P t -> P (Array t n).
Hypothesis HFunction : forall r ps, P r -> Forall P ps -> P (Function r ps).

Fixpoint type_nested_ind (t : type) : P t :=
  match t with
  | Void q => HVoid q
  | Named q n => HNamed q n
  | Pointer q u => HPointer q u (type_nested_ind u)
  | LRef u => HLRef u (type_nested_ind u)
  | RRef u => HRRef u (type_nested_ind u)
  | Array u n => HArray u n (type_nested_ind u)
  | Function r ps =>
      HFunction r ps (type_nested_ind r)
        ((fix all (l : list type) : Forall P l :=
            match l with
            | [] => Forall_nil P
            | x :: m => @Forall_cons _ P x m (type_nested_ind x) (all m)
            end) ps)
  end.
End TypeInduction.

(** *** <type_traits> *)

(** [std::is_same<A, B>::value] *)
Definition is_same (a b : type) : bool := type_eqb a b.

(** [std::conditional<B, T, F>::type] *)
Definition conditional (b : bool) (t f : type) : type := if b then t else f.

(** [std::is_reference<T>::value] *)
Definition is_reference (t : type) : bool :=
  match t with
  | LRef _ | RRef _ => true
  | _ => false
  end.

(** [std::remove_reference<T>::type] *)
Definition remove_reference (t : type) : type :=
  match t with
  | LRef u | RRef u => u
  | _ => t
  end.

(** [T&] for a template parameter [T], with reference collapsing. *)
Definition lref (t : type) : type :=
  match t with
  | LRef u | RRef u => LRef u
  | _ => LRef t
  end.

(** [T&&] for a template parameter [T], with reference collapsing. *)
Definition rref (t : type) : type :=
  match t with
  | LRef u => LRef u
  | RRef u => RRef u
  | _ => RRef t
  end.

(** [std::remove_cv<T>::type] *)
Fixpoint remove_cv (t : type) : type :=
  match t with
  | Void _ => Void unqualified
  | Named _ n => Named unqualified n
  | Pointer _ p => Pointer unqualified p
  | Array e n => Array (remove_cv e) n
  | LRef _ | RRef _ | Function _ _ => t
  end.

(** [const T] for a template parameter [T]: ignored on references and
    functions, applied to the element of an array. *)
Fixpoint add_const (t : type) : type :=
  match t with
  | Void q => Void (CV true (is_volatile q))
  | Named q n => Named (CV true (is_volatile q)) n
  | Pointer q p => Pointer (CV true (is_volatile q)) p
  | Array e n => Array (add_const e) n
  | LRef _ | RRef _ | Function _ _ => t
  end.

(** [volatile T] for a template parameter [T]. *)
Fixpoint add_volatile (t : type) : type :=
  match t with
  | Void q => Void (CV (is_const q) true)
  | Named q n => Named (CV (is_const q) true) n
  | Pointer q p => Pointer (CV (is_const q) true) p
  | Array e n => Array (add_volatile e) n
  | LRef _ | RRef _ | Function _ _ => t
  end.

(** [std::is_array<T>::value] *)
Definition is_array (t : type) : bool :=
  match t with
  | Array _ _ => true
  | _ => false
  end.

(** [std::is_void<T>::value] *)
Definition is_void (t : type) : bool :=
  match t with
  | Void _ => true
  | _ => false
  end.

(** The qualifiers of a type: those of the element for an array, none
    for a reference or a function. *)
Fixpoint cv_of (t : type) : cv :=
  match t with
  | Void q | Named q _ | Pointer q _ => q
  | Array e _ => cv_of e
  | LRef _ | RRef _ | Function _ _ => unqualified
  end.

(** [a] has no qualifier that [b] lacks. *)
Definition cv_le (a b : cv) : bool :=
  implb (is_const a) (is_const b) && implb (is_volatile a) (is_volatile b).

(** [std::is_function<T>::value] *)
Definition is_function (t : type) : bool :=
  match t with
  | Function _ _ => true
  | _ => false
  end.

(** A non-static data member cannot have a function type or void. *)
Definition valid_data_member (t : type) : bool :=
  negb (is_function t) && negb (is_void t).

(** [std::decay<T>::type]: with [U = remove_reference<T>], an array
    [E[N]] becomes [E*], a function becomes a pointer to it, anything
    else loses its cv-qualifiers. *)
Definition decay (t : type) : type :=
  match remove_reference t with
  | Array e _ => Pointer unqualified e
  | Function r ps => Pointer unqualified (Function r ps)
  | u => remove_cv u
  end.

(** ** Outcome of an instantiation *)

Inductive diagnostic : Type :=
| static_assertion_failed (message : string)
| no_member_named_type (template : string)
| use_of_deleted_function (what : string)
| inaccessible_member (what : string)
| invalid_data_member (name : string)
| no_matching_initialization (member : string).

Inductive compile (A : Type) : Type :=
| Ok (a : A)
| Error (d : diagnostic).
Arguments Ok {A} a.
Arguments Error {A} d.

Definition bind {A B : Type} (c : compile A) (k : A -> compile B) : compile B :=
  match c with
  | Ok a => k a
  | Error d => Error d
  end.

Declare Scope compile_scope.
Delimit Scope compile_scope with compile.
Notation "'do' x <- c ; k" := (bind c (fun x => k))
  (at level 10, x name, c at level 100, k at level 200) : compile_scope.
Open Scope compile_scope.

(** [static_assert(b, message)] *)
Definition static_assert (b : bool) (message : string) : compile unit :=
  if b then Ok tt else Error (static_assertion_failed message).

(** [typename X::type] for a trait that may or may not declare the member. *)
Definition typename_type (template : string) (o : option type) : compile type :=
  match o with
  | Some t => Ok t
  | None => Error (no_member_named_type template)
  end.

(** ** Objects *)

Definition addr := nat.

Inductive value_category : Type := lvalue | xvalue.

(** How a plain object came to be. *)
Inductive origin : Type :=
| caller_owned                                      (* exists before the call *)
| constructed_from (src : addr) (c : value_category).  (* T(expr), expr designating src *)

(** A [boost::asio::async_result<Handler>] constructed from the handler
    [h]: [async_result(Handler& h)]. *)
Record asio_async_result := {
  bound_handler_type : type;
  bound_handler : addr
}.

Inductive object : Type :=
| plain (T : type) (o : origin)
| asio_carrier (r : asio_async_result)
| beast_carrier (impl_ : asio_async_result).

(** Objects live at their index. *)
Definition store := list object.

(** What an initiating function may return. *)
Inductive val : Type :=
| void_value
| handle (id : nat).

(** ** External collaborators

    What the headers use but do not define. *)
Record environment := {
  (** [boost::asio::handler_type<T, Signature>::type] *)
  asio_handler_type : type -> type -> option type;
  (** [boost::asio::async_result<Handler>::type] *)
  asio_async_result_type : type -> option type;
  (** [boost::asio::async_result<Handler>::get()] of a carrier that was
      constructed from the handler at the given address *)
  asio_async_result_get : type -> addr -> val;
  (** [is_CompletionHandler<T, Signature>::value], whether [T] can be
      called as [Signature] says; declared in
      beast/core/handler_concepts.hpp, which the headers include *)
  is_CompletionHandler : type -> type -> bool;
  (** whether the constructors and conversion functions that the
      program's classes declare initialise a [T] from an expression of
      type [Arg], an lvalue for [Arg = X&], an xvalue for [Arg = X&&]:
      [std::is_constructible<T, Arg>::value] for a class [T] *)
  is_constructible : type -> type -> bool
}.

(** *** Boost.Asio's own templates

    [handler_type] and [async_result] as <boost/asio/handler_type.hpp>
    and <boost/asio/async_result.hpp> define them, over the
    specialisations a program registers for its completion tokens. *)
Module boost_asio.

Record specializations := {
  (** explicit specialisations of [handler_type<T, Signature>] *)
  of_handler_type : type -> type -> option type;
  (** explicit specialisations of [async_result<Handler>]: member
      [type] and what [get()] returns *)
  of_async_result : type -> option (type * (addr -> val));
  (** which of the program's classes are constructible from which
      expressions *)
  constructible : type -> type -> bool
}.

(** A class with its implicit copy and move constructors and no other:
    constructible from an lvalue or an rvalue of itself, const or not,
    not volatile. *)
Definition copies_and_moves (T Arg : type) : bool :=
  is_same (remove_cv (remove_reference Arg)) T &&
  negb (is_volatile (cv_of (remove_reference Arg))).

(** No specialisation; every class copies and moves. *)
Definition none : specializations :=
  {| of_handler_type := fun _ _ => None;
     of_async_result := fun _ => None;
     constructible := copies_and_moves |}.

Fixpoint first_specialized (sp : specializations) (chain : list type)
    (S default : type) : type :=
  match chain with
  | [] => default
  | T :: rest =>
      match of_handler_type sp T S with
      | Some H => H
      | None => first_specialized sp rest S default
      end
  end.

(** The partial specialisations for functions of up to five parameters
    derive from the one for the pointer to the function. *)
Definition function_to_pointer (T : type) : type :=
  match T with
  | Function _ ps => if Nat.leb (List.length ps) 5 then Pointer unqualified T else T
  | _ => T
  end.

(** The chain of partial specialisations [T] derives from: [const H&]
    (any qualifiers) derives from [H], [H&&] from [H], [const H] from
    [H]; the primary template ends it with [typedef Handler type]. *)
Definition handler_type (sp : specializations) (T S : type) : type :=
  let U := remove_cv (remove_reference T) in
  let W := function_to_pointer U in
  match T with
  | RRef R => first_specialized sp [T; R; U; W] S W
  | _ => first_specialized sp [T; U; W] S W
  end.

(** Primary template: [typedef void type]. *)
Definition async_result_type (sp : specializations) (H : type) : type :=
  match of_async_result sp H with
  | Some (R, _) => R
  | None => Void unqualified
  end.

(** Primary template: [type get() {}]. *)
Definition async_result_get (sp : specializations) (H : type) (h : addr) : val :=
  match of_async_result sp H with
  | Some (_, get) => get h
  | None => void_value
  end.

(** The primary templates are the ones selected for [(T, S)]: no
    partial specialisation matches [T] (no reference, no qualifier, no
    function of up to five parameters) and none is registered. *)
Definition primary (sp : specializations) (T S : type) : bool :=
  negb (is_reference T) && is_same (remove_cv T) T &&
  is_same (function_to_pointer T) T &&
  match of_handler_type sp T S, of_async_result sp T with
  | None, None => true
  | _, _ => false
  end.

(** Nothing is registered for [T]: no specialisation of
    [handler_type] on the chain [T] derives from, and none of
    [async_result] for the type the chain ends with. *)
Definition unadapted (sp : specializations) (T S : type) : bool :=
  let U := remove_cv T in
  let W := function_to_pointer U in
  match of_handler_type sp T S, of_handler_type sp U S,
        of_handler_type sp W S, of_async_result sp W with
  | None, None, None, None => true
  | _, _, _, _ => false
  end.

Definition env (sp : specializations) (invocable : type -> type -> bool)
    : environment :=
  {| asio_handler_type := fun T S => Some (handler_type sp T S);
     asio_async_result_type := fun H => Some (async_result_type sp H);
     asio_async_result_get := async_result_get sp;
     is_CompletionHandler := invocable;
     is_constructible := constructible sp |}.

End boost_asio.

(** ** Special member functions of a class *)

Inductive access : Type := public_access | private_access.

Inductive special_member : Type :=
| copy_constructor | copy_assignment | move_constructor | move_assignment.

Inductive function_definition : Type := deleted | defaulted | user_provided.

Record special_member_decl := {
  sm_which : special_member;
  sm_access : access;
  sm_definition : function_definition
}.

Definition special_member_eqb (a b : special_member) : bool :=
  match a, b with
  | copy_constructor, copy_constructor
  | copy_assignment, copy_assignment
  | move_constructor, move_constructor
  | move_assignment, move_assignment => true
  | _, _ => false
  end.

Definition declared (ds : list special_member_decl) (m : special_member)
    : option special_member_decl :=
  find (fun d => special_member_eqb (sm_which d) m) ds.

(** The function that overload resolution selects for an operation, among
    the user-declared special members [ds] and the implicit ones.  A move
    is implicitly declared only when no copy or move operation is
    user-declared; where none is declared an rvalue selects the copy. *)
Definition selected_copy (ds : list special_member_decl) (m : special_member)
    : special_member_decl :=
  match declared ds m with
  | Some d => d
  | None =>
      match declared ds move_constructor, declared ds move_assignment with
      | None, None => {| sm_which := m; sm_access := public_access;
                         sm_definition := defaulted |}
      | _, _ => {| sm_which := m; sm_access := public_access;
                   sm_definition := deleted |}
      end
  end.

Definition selected (ds : list special_member_decl) (m : special_member)
    : special_member_decl :=
  match declared ds m, ds, m with
  | Some d, _, _ => d
  | None, _ :: _, move_constructor => selected_copy ds copy_constructor
  | None, _ :: _, move_assignment => selected_copy ds copy_assignment
  | None, _, _ => selected_copy ds m
  end.

(** An expression outside the class that copies, assigns or moves an
    object of the class. *)
Definition use_special_member (ds : list special_member_decl)
    (m : special_member) : compile unit :=
  match sm_definition (selected ds m), sm_access (selected ds m) with
  | deleted, _ => Error (use_of_deleted_function "async_result")
  | _, private_access => Error (inaccessible_member "async_result")
  | _, public_access => Ok tt
  end.

(** The copy and move operations that [boost::asio::async_result<H>]
    declares: none in the primary template; a specialisation declares
    its own. *)
Definition asio_async_result_special_members
    (sp : boost_asio.specializations) (H : type)
    : option (list special_member_decl) :=
  match boost_asio.of_async_result sp H with
  | None => Some []
  | Some _ => None
  end.

(** ** Constructors with a member initialiser list *)

Inductive member_type : Type :=
| of_type (T : type)                    (* an object of type T, or a reference when T is one *)
| of_asio_async_result (H : type)       (* boost::asio::async_result<H> *)
| of_beast_async_result (H : type).     (* beast::async_result, whose impl_ is a boost::asio::async_result<H> *)

Inductive initializer : Type :=
| cast_token (U : type)       (* static_cast<U>(token); std::forward<T>(token) is static_cast<T&&>(token) *)
| member (name : string).     (* the name of a data member *)

Record constructor_def := {
  parameter : type;                                   (* the type of [token] *)
  members : list (string * member_type);              (* in declaration order *)
  mem_initializers : list (string * initializer);     (* as the constructor lists them *)
  body : list (bool * string)                         (* the static_asserts of the body *)
}.

Fixpoint lookup {A : Type} (n : string) (l : list (string * A)) : option A :=
  match l with
  | [] => None
  | (m, a) :: rest => if String.eqb n m then Some a else lookup n rest
  end.

(** The members initialised so far and the objects they name, oldest first. *)
Definition initialized := list (string * addr).

(** The object an initialiser designates and its value category.  A cast
    to [T&] is an lvalue, one to [T&&] an xvalue (an lvalue when [T] is a
    function); a member is usable once it is initialised. *)
Definition eval (token : addr) (done : initialized) (e : initializer)
    : option (addr * value_category) :=
  match e with
  | cast_token (LRef _) => Some (token, lvalue)
  | cast_token (RRef (Function _ _)) => Some (token, lvalue)
  | cast_token (RRef _) => Some (token, xvalue)
  | cast_token _ => None
  | member n =>
      match lookup n done with
      | Some a => Some (a, lvalue)
      | None => None
      end
  end.

(** [boost::asio::async_result<H>::async_result(H& h)] *)
Definition asio_async_result_ctor (H : type) (h : addr) : asio_async_result :=
  {| bound_handler_type := H; bound_handler := h |}.

(** [beast::async_result::async_result(completion_handler_type& h) : impl_(h)],
    the same in both headers. *)
Definition async_result_ctor (H : type) (h : addr) : object :=
  beast_carrier (asio_async_result_ctor H h).

(** Two types that differ in their qualifiers at most: a reference to
    one binds to the other directly or not at all. *)
Definition reference_related (X U : type) : bool :=
  is_same (remove_cv X) (remove_cv U).

(** Whether the initialiser is an expression of the member's own type,
    up to references and qualifiers. *)
Definition of_own_type (m : member_type) (e : initializer) : bool :=
  match m, e with
  | of_type M, cast_token Arg =>
      reference_related (remove_reference Arg) (remove_reference M)
  | _, _ => true
  end.

(** Initialising one member from the designated object, in a
    constructor that [instantiate_constructor] below accepts.  A
    reference is bound to the object when the expression has the type
    referred to ([own]).  An object is constructed from it in fresh
    storage; so is what a reference to another type is bound to, the
    outcome of a conversion. *)
Definition init_member (st : store) (m : member_type) (own : bool)
    (src : addr * value_category) : addr * store :=
  match m with
  | of_type T =>
      if is_reference T && own then (fst src, st)
      else (List.length st,
            st ++ [plain (remove_reference T)
                     (constructed_from (fst src) (snd src))])
  | of_asio_async_result H =>
      (List.length st, st ++ [asio_carrier (asio_async_result_ctor H (fst src))])
  | of_beast_async_result H =>
      (List.length st, st ++ [async_result_ctor H (fst src)])
  end.

(** Members are initialised in the order of their declaration, whatever
    the order of the initialiser list. *)
Fixpoint run_members (inits : list (string * initializer)) (token : addr)
    (ms : list (string * member_type)) (done : initialized) (st : store)
    : option (initialized * store) :=
  match ms with
  | [] => Some (done, st)
  | (n, m) :: rest =>
      match lookup n inits with
      | None => None
      | Some e =>
          match eval token done e with
          | None => None
          | Some src =>
              let (a, st') := init_member st m (of_own_type m e) src in
              run_members inits token rest (done ++ [(n, a)]) st'
          end
      end
  end.

Definition run_constructor (c : constructor_def) (st : store) (token : addr)
    : option (initialized * store) :=
  run_members (mem_initializers c) token (members c) [] st.

Fixpoint check_asserts (l : list (bool * string)) : compile unit :=
  match l with
  | [] => Ok tt
  | (b, msg) :: rest => do _ <- static_assert b msg; check_asserts rest
  end.

(** Whether an expression of type [Arg] is an lvalue: [X&], and [X&&]
    for a function [X]. *)
Definition designates_lvalue (Arg : type) : bool :=
  match Arg with
  | LRef _ | RRef (Function _ _) => true
  | _ => false
  end.

(** The standard conversions that make a pointer to [P] out of an
    expression of type [X]: from a function to the pointer to it, from
    an array to the pointer to its element, and from a pointer to one
    whose pointee has the same type with no qualifier less. *)
Definition converts_to_pointer (X P : type) : bool :=
  match X with
  | Function _ _ => is_same X P
  | Array E _ | Pointer _ E => reference_related E P && cv_le (cv_of E) (cv_of P)
  | _ => false
  end.

(** Whether a member of type [M] can be initialised from an expression
    of type [Arg].  A reference binds to an expression of its own type
    up to qualifiers only if it drops none of them and, for [U&] with
    [U] not const or volatile, to an lvalue, for [U&&] to an rvalue or
    a function.  A pointer is made by a standard conversion.  No object
    has a function type or void, and an array is not initialised from
    one expression in parentheses.  All else is for the constructors
    and conversion functions of the program's classes to say. *)
Definition initializable (env : environment) (M Arg : type) : bool :=
  let X := remove_reference Arg in
  match M with
  | LRef U =>
      if reference_related X U
      then cv_le (cv_of X) (cv_of U) &&
           (designates_lvalue Arg ||
            (is_const (cv_of U) && negb (is_volatile (cv_of U))))
      else is_constructible env M Arg
  | RRef U =>
      if reference_related X U
      then cv_le (cv_of X) (cv_of U) &&
           (negb (designates_lvalue Arg) || is_function X)
      else is_constructible env M Arg
  | Pointer _ P => converts_to_pointer X P || is_constructible env M Arg
  | Named _ _ => is_constructible env M Arg
  | Function _ _ | Void _ | Array _ _ => false
  end.

(** The member initialisers of a constructor are well-formed: a member
    initialised from the token must be initialisable from the cast
    expression.  The carriers take [completion_handler_type&] (Boost's
    [Handler&]), which the handler member, an lvalue, always gives. *)
Fixpoint check_initializers (env : environment)
    (inits : list (string * initializer)) (ms : list (string * member_type))
    : compile unit :=
  match ms with
  | [] => Ok tt
  | (n, m) :: rest =>
      match m, lookup n inits with
      | of_type M, Some (cast_token Arg) =>
          if initializable env M Arg then check_initializers env inits rest
          else Error (no_matching_initialization n)
      | _, Some _ => check_initializers env inits rest
      | _, None => Error (no_matching_initialization n)
      end
  end.

(** Instantiating the constructor's definition evaluates the
    static_asserts of its body and checks the member initialisers.  A
    compiler reports every ill-formed construct; of several, this keeps
    the static assertion. *)
Definition instantiate_constructor (env : environment) (c : constructor_def)
    : compile unit :=
  do _ <- check_asserts (body c);
  check_initializers env (mem_initializers c) (members c).

(** [r.get()] on a [boost::asio::async_result]. *)
Definition asio_get (env : environment) (r : asio_async_result) : val :=
  asio_async_result_get env (bound_handler_type r) (bound_handler r).

(** ** include/beast/core/async_result.hpp *)
Module Older.
Section Templates.
Variable env : environment.

Record async_result_class := {
  completion_handler_type : type;
  return_type : type;
  special_members : list special_member_decl
}.

Definition async_result (CompletionToken Signature : type)
    : compile async_result_class :=
  do _ <- static_assert (negb (is_reference CompletionToken)) "";
  do H <- typename_type "boost::asio::handler_type"
            (asio_handler_type env CompletionToken Signature);
  do R <- typename_type "boost::asio::async_result"
            (asio_async_result_type env H);
  Ok {| completion_handler_type := H;
        return_type := R;
        special_members :=
          [ {| sm_which := copy_constructor; sm_access := public_access;
               sm_definition := deleted |};
            {| sm_which := copy_assignment; sm_access := public_access;
               sm_definition := deleted |} ] |}.

(** [get() { return impl_.get(); }] *)
Definition get (impl_ : asio_async_result) : val := asio_get env impl_.

Record async_completion_class := {
  handler_type : type;
  result_type : type;
  constructor : constructor_def
}.

Definition async_completion (CompletionHandler Signature : type)
    : compile async_completion_class :=
  do H <- typename_type "boost::asio::handler_type"
            (asio_handler_type env CompletionHandler Signature);
  do R <- typename_type "boost::asio::async_result"
            (asio_async_result_type env H);
  do _ <- (if valid_data_member H then Ok tt
           else Error (invalid_data_member "handler"));
  Ok {| handler_type := H;
        result_type := R;
        constructor :=
          {| parameter := lref (remove_reference CompletionHandler);
             members := [ ("handler", of_type H);
                          ("result", of_asio_async_result H) ];
             mem_initializers :=
               [ ("handler", cast_token (rref CompletionHandler));
                 ("result", member "handler") ];
             body := [ (is_CompletionHandler env H Signature,
                        "Handler requirements not met") ] |} |}.

Definition BEAST_INITFN_RESULT_TYPE (ct sig : type) : compile type :=
  do C <- async_completion ct sig; Ok (result_type C).

(** [async_completion<CompletionHandler, Signature> init{token};] *)
Definition construct (CompletionHandler Signature : type) (st : store)
    (token : addr) : compile (option (initialized * store)) :=
  do C <- async_completion CompletionHandler Signature;
  do _ <- instantiate_constructor env (constructor C);
  Ok (run_constructor (constructor C) st token).

(** [init.result.get()] *)
Definition result_get (st : store) (result : addr) : option val :=
  match nth_error st result with
  | Some (asio_carrier r) => Some (asio_get env r)
  | _ => None
  end.

(** The handler type and the return type [async_result] resolves. *)
Definition resolve (CompletionToken Signature : type) : compile (type * type) :=
  do A <- async_result CompletionToken Signature;
  Ok (completion_handler_type A, return_type A).

End Templates.
End Older.

(** ** The revised header (unnamed/part_000) *)
Module Newer.
Section Templates.
Variable env : environment.

Record async_result_class := {
  completion_handler_type : type;
  return_type : type;
  special_members : list special_member_decl
}.

Definition async_result (CompletionToken Signature : type)
    : compile async_result_class :=
  do _ <- static_assert (negb (is_reference CompletionToken)) "";
  do H <- typename_type "boost::asio::handler_type"
            (asio_handler_type env CompletionToken Signature);
  do R <- typename_type "boost::asio::async_result"
            (asio_async_result_type env H);
  Ok {| completion_handler_type := H;
        return_type := R;
        special_members :=
          [ {| sm_which := copy_constructor; sm_access := private_access;
               sm_definition := deleted |};
            {| sm_which := copy_assignment; sm_access := private_access;
               sm_definition := deleted |} ] |}.

(** [get() { return impl_.get(); }] *)
Definition get (impl_ : asio_async_result) : val := asio_get env impl_.

Record async_completion_class := {
  result_class : async_result_class;     (* async_result<decay<CompletionToken>, Signature> *)
  constructor : constructor_def
}.

(** [async_completion::completion_handler_type] *)
Definition handler_of (C : async_completion_class) : type :=
  completion_handler_type (result_class C).

Definition async_completion (CompletionToken Signature : type)
    : compile async_completion_class :=
  do A <- async_result (decay CompletionToken) Signature;
  let H := completion_handler_type A in
  let same := is_same CompletionToken H in
  Ok {| result_class := A;
        constructor :=
          {| parameter := lref CompletionToken;
             members :=
               [ ("completion_handler", of_type (conditional same (lref H) H));
                 ("result", of_beast_async_result H) ];
             mem_initializers :=
               [ ("completion_handler",
                  cast_token (conditional same (lref H) (rref CompletionToken)));
                 ("result", member "completion_handler") ];
             body := [ (is_CompletionHandler env H Signature,
                        "CompletionToken requirements not met (Signature mismatch)") ] |} |}.

Definition BEAST_INITFN_RESULT_TYPE (ct sig : type) : compile type :=
  do A <- async_result (decay ct) sig; Ok (return_type A).

Definition BEAST_HANDLER_TYPE (ct sig : type) : compile type :=
  do A <- async_result (decay ct) sig; Ok (completion_handler_type A).

(** [async_completion<CompletionToken, Signature> completion{token};] *)
Definition construct (CompletionToken Signature : type) (st : store)
    (token : addr) : compile (option (initialized * store)) :=
  do C <- async_completion CompletionToken Signature;
  do _ <- instantiate_constructor env (constructor C);
  Ok (run_constructor (constructor C) st token).

(** [completion.result.get()] *)
Definition result_get (st : store) (result : addr) : option val :=
  match nth_error st result with
  | Some (beast_carrier impl_) => Some (get impl_)
  | _ => None
  end.


(** The handler type and the return type [async_result] resolves. *)
Definition resolve (CompletionToken Signature : type) : compile (type * type) :=
  do A <- async_result CompletionToken Signature;
  Ok (completion_handler_type A, return_type A).

End Templates.
End Newer.

(** What a handler is, whichever object holds it: its type and the
    object of the caller it is, or was made out of. *)
Definition handler_value (st : store) (h : addr) : option (type * addr) :=
  match nth_error st h with
  | Some (plain T caller_owned) => Some (T, h)
  | Some (plain T (constructed_from src _)) => Some (T, src)
  | _ => None
  end.



(** The value category of [static_cast<T&&>(token)]. *)
Definition forwarded_as (T : type) : value_category :=
  match rref T with
  | RRef (Function _ _) => lvalue
  | RRef _ => xvalue
  | _ => lvalue
  end.

(** ** Sample programs *)
Module Example.

Definition int : type := Named unqualified "int".
(** [void(int)] *)
Definition signature : type := Function (Void unqualified) [int].
(** a closure type callable as [void(int)] *)
Definition callback : type := Named unqualified "callback".
(** a token with an adapter: [handler_type<use_future_t, S>::type] is
    [promise_handler], whose [async_result] returns a [future] *)
Definition use_future_t : type := Named unqualified "use_future_t".
Definition promise_handler : type := Named unqualified "promise_handler".
Definition future : type := Named unqualified "future".

Definition invocable (T S : type) : bool :=
  (is_same T callback || is_same T promise_handler) && is_same S signature.
(** the call operator of [callback] is const: a const [callback] can be
    called as well *)
Definition invocable_const (T S : type) : bool :=
  invocable T S || (is_same T (add_const callback) && is_same S signature).

Definition adapters : boost_asio.specializations :=
  {| boost_asio.of_handler_type := fun T S =>
       if is_same T use_future_t then Some promise_handler else None;
     boost_asio.of_async_result := fun H =>
       if is_same H promise_handler then Some (future, fun h => handle h)
       else None;
     boost_asio.constructible := fun T Arg =>
       boost_asio.copies_and_moves T Arg ||
       (is_same T promise_handler &&
        is_same (remove_cv (remove_reference Arg)) use_future_t) |}.


(** [void(int, int, int, int, int, int)] *)
Definition six_parameters : type :=
  Function (Void unqualified) [int; int; int; int; int; int].

(** no adapter registered *)
Definition plain_env : environment := boost_asio.env boost_asio.none invocable.
Definition future_env : environment := boost_asio.env adapters invocable.

(** the caller's token lives at address 0 *)
Definition caller (T : type) : store := [plain T caller_owned].

End Example.


(** * Properties *)

(** ** Equality of types *)


Lemma cv_eqb_refl q : cv_eqb q q = true.
Proof. destruct q as [[] []]; reflexivity. Qed.

Lemma cv_eqb_eq q q' : cv_eqb q q' = true -> q = q'.
Proof.
  destruct q as [[] []], q' as [[] []]; cbv; intro E;
    try discriminate E; reflexivity.
Qed.

Lemma type_eqb_refl t : type_eqb t t = true.
Proof.
  induction t using type_nested_ind; simpl;
    rewrite ?cv_eqb_refl, ?String.eqb_refl, ?Nat.eqb_refl; auto.
  all: try (rewrite IHt; reflexivity).
  rewrite IHt. simpl.
  induction H as [|x m Hx _ IH]; [reflexivity|].
  now rewrite Hx, IH.
Qed.

Lemma type_eqb_eq a : forall b, type_eqb a b = true -> a = b.
Proof.
  induction a using type_nested_ind; intros [] E; simpl in E; try discriminate.
  - now apply cv_eqb_eq in E; subst.
  - apply andb_prop in E as [E1 E2].
    apply cv_eqb_eq in E1. apply String.eqb_eq in E2. now subst.
  - apply andb_prop in E as [E1 E2].
    apply cv_eqb_eq in E1. apply IHa in E2. now subst.
  - apply IHa in E. now subst.
  - apply IHa in E. now subst.
  - apply andb_prop in E as [E1 E2].
    apply IHa in E1. apply Nat.eqb_eq in E2. now subst.
  - apply andb_prop in E as [E1 E2].
    apply IHa in E1. subst. f_equal.
    revert params E2.
    induction H as [|x m Hx _ IH]; intros [|y l] E2; try discriminate; auto.
    apply andb_prop in E2 as [E2 E3].
    apply Hx in E2. apply IH in E3. now subst.
Qed.

Lemma is_same_true a b : is_same a b = true <-> a = b.
Proof.
  split; [apply type_eqb_eq | intros ->; apply type_eqb_refl].
Qed.

Lemma is_same_false a b : is_same a b = false <-> a <> b.
Proof.
  split.
  - intros E ->. unfold is_same in E. now rewrite type_eqb_refl in E.
  - intros N. destruct (is_same a b) eqn:E; [|reflexivity].
    now apply is_same_true in E.
Qed.

(** ** Reference collapsing and decay *)

Lemma lref_is_reference T : exists U, lref T = LRef U.
Proof. destruct T; simpl; eauto. Qed.

Lemma rref_is_reference T : is_reference (rref T) = true.
Proof. destruct T; reflexivity. Qed.

Lemma remove_reference_lref T : remove_reference (lref T) = remove_reference T.
Proof. destruct T; reflexivity. Qed.

Lemma remove_reference_rref T : remove_reference (rref T) = remove_reference T.
Proof. destruct T; reflexivity. Qed.



Lemma remove_cv_add_const T : is_array T = false -> remove_cv (add_const T) = remove_cv T.
Proof. destruct T; simpl; intros; congruence. Qed.

Lemma remove_cv_add_volatile T :
  is_array T = false -> remove_cv (add_volatile T) = remove_cv T.
Proof. destruct T; simpl; intros; congruence. Qed.



(** ** Evaluating the initialisers *)

Lemma eval_cast_lref T token done :
  eval token done (cast_token (lref T)) = Some (token, lvalue).
Proof. destruct T; reflexivity. Qed.

Lemma eval_cast_rref T token done :
  eval token done (cast_token (rref T)) = Some (token, forwarded_as T).
Proof.
  unfold forwarded_as.
  destruct T as [| | |u|u| |]; simpl; try reflexivity; destruct u; reflexivity.
Qed.

(** ** What an instantiation that succeeds has established *)

Ltac compile_inv H :=
  repeat match type of H with
  | bind ?c _ = Ok _ =>
      let E := fresh "E" in destruct c eqn:E; simpl in H; [|discriminate H]
  | Ok _ = Ok _ => injection H as H
  end.

Lemma static_assert_ok b msg u : static_assert b msg = Ok u -> b = true.
Proof. destruct b; [reflexivity | discriminate]. Qed.

Lemma typename_type_ok n o T : typename_type n o = Ok T -> o = Some T.
Proof. destruct o; simpl; congruence. Qed.

Lemma older_async_result_ok env T S A :
  Older.async_result env T S = Ok A ->
  is_reference T = false /\
  asio_handler_type env T S = Some (Older.completion_handler_type A) /\
  asio_async_result_type env (Older.completion_handler_type A) =
    Some (Older.return_type A).
Proof.
  unfold Older.async_result. intros H. compile_inv H. subst A. simpl.
  apply static_assert_ok in E. apply typename_type_ok in E0, E1.
  apply negb_true_iff in E. auto.
Qed.

Lemma newer_async_result_ok env T S A :
  Newer.async_result env T S = Ok A ->
  is_reference T = false /\
  asio_handler_type env T S = Some (Newer.completion_handler_type A) /\
  asio_async_result_type env (Newer.completion_handler_type A) =
    Some (Newer.return_type A).
Proof.
  unfold Newer.async_result. intros H. compile_inv H. subst A. simpl.
  apply static_assert_ok in E. apply typename_type_ok in E0, E1.
  apply negb_true_iff in E. auto.
Qed.

Lemma older_async_completion_ok env CH S C :
  Older.async_completion env CH S = Ok C ->
  Older.constructor C =
    {| parameter := lref (remove_reference CH);
       members := [ ("handler", of_type (Older.handler_type C));
                    ("result", of_asio_async_result (Older.handler_type C)) ];
       mem_initializers := [ ("handler", cast_token (rref CH));
                             ("result", member "handler") ];
       body := [ (is_CompletionHandler env (Older.handler_type C) S,
                  "Handler requirements not met") ] |}.
Proof.
  unfold Older.async_completion. intros H. compile_inv H. now subst C.
Qed.

Lemma newer_async_completion_ok env CT S C :
  Newer.async_completion env CT S = Ok C ->
  Newer.async_result env (decay CT) S = Ok (Newer.result_class C) /\
  let H := Newer.handler_of C in
  let same := is_same CT H in
  Newer.constructor C =
    {| parameter := lref CT;
       members := [ ("completion_handler", of_type (conditional same (lref H) H));
                    ("result", of_beast_async_result H) ];
       mem_initializers :=
         [ ("completion_handler", cast_token (conditional same (lref H) (rref CT)));
           ("result", member "completion_handler") ];
       body := [ (is_CompletionHandler env H S,
                  "CompletionToken requirements not met (Signature mismatch)") ] |}.
Proof.
  unfold Newer.async_completion. intros H. compile_inv H. now subst C.
Qed.

(** ** The constructor of the Binder *)

Arguments lref : simpl never.
Arguments rref : simpl never.
Arguments is_reference : simpl never.
Arguments eval : simpl never.

Lemma reference_related_refl T : reference_related T T = true.
Proof. apply type_eqb_refl. Qed.

Lemma remove_reference_object T : is_reference T = false -> remove_reference T = T.
Proof. destruct T; try reflexivity; discriminate. Qed.

Lemma newer_run_constructor env CT Sig C st token :
  Newer.async_completion env CT Sig = Ok C ->
  let H := Newer.handler_of C in
  run_constructor (Newer.constructor C) st token =
    Some (if is_same CT H
          then ([("completion_handler", token); ("result", List.length st)],
                st ++ [async_result_ctor H token])
          else if is_reference H &&
                  reference_related (remove_reference CT) (remove_reference H)
          then ([("completion_handler", token); ("result", List.length st)],
                st ++ [async_result_ctor H token])
          else ([("completion_handler", List.length st);
                 ("result", S (List.length st))],
                st ++ [plain (remove_reference H)
                         (constructed_from token (forwarded_as CT));
                       async_result_ctor H (List.length st)])).
Proof.
  intros HC H. apply newer_async_completion_ok in HC as [_ HC].
  fold H in HC. cbv zeta in HC. rewrite HC. unfold run_constructor. simpl.
  destruct (is_same CT H); simpl.
  - rewrite eval_cast_lref, remove_reference_lref, reference_related_refl.
    destruct (lref_is_reference H) as [U ->]. reflexivity.
  - rewrite eval_cast_rref, remove_reference_rref. simpl.
    destruct (is_reference H &&
              reference_related (remove_reference CT) (remove_reference H));
      unfold eval; simpl; [reflexivity|].
    rewrite length_app, <- app_assoc. simpl.
    now rewrite Nat.add_1_r.
Qed.

Lemma older_run_constructor env CH Sig C st token :
  Older.async_completion env CH Sig = Ok C ->
  let H := Older.handler_type C in
  run_constructor (Older.constructor C) st token =
    Some (if is_reference H &&
             reference_related (remove_reference CH) (remove_reference H)
          then ([("handler", token); ("result", List.length st)],
                st ++ [asio_carrier (asio_async_result_ctor H token)])
          else ([("handler", List.length st); ("result", S (List.length st))],
                st ++ [plain (remove_reference H)
                         (constructed_from token (forwarded_as CH));
                       asio_carrier (asio_async_result_ctor H (List.length st))])).
Proof.
  intros HC H. apply older_async_completion_ok in HC.
  fold H in HC. rewrite HC. unfold run_constructor. simpl.
  rewrite eval_cast_rref, remove_reference_rref. simpl.
  destruct (is_reference H &&
            reference_related (remove_reference CH) (remove_reference H));
    unfold eval; simpl; [reflexivity|].
  rewrite length_app, <- app_assoc. simpl.
  now rewrite Nat.add_1_r.
Qed.

Lemma cv_le_refl q : cv_le q q = true.
Proof. destruct q as [[] []]; reflexivity. Qed.

(** A reference to a type binds to an lvalue of that type. *)
Lemma initializable_lref env H : initializable env (lref H) (lref H) = true.
Proof.
  destruct (lref_is_reference H) as [U ->]. unfold initializable. simpl.
  unfold reference_related, is_same. now rewrite type_eqb_refl, cv_le_refl.
Qed.

Lemma construct_newer_unfold env CT Sig st token C :
  Newer.async_completion env CT Sig = Ok C ->
  Newer.construct env CT Sig st token =
    if is_CompletionHandler env (Newer.handler_of C) Sig
    then if is_same CT (Newer.handler_of C) ||
            initializable env (Newer.handler_of C) (rref CT)
         then Ok (run_constructor (Newer.constructor C) st token)
         else Error (no_matching_initialization "completion_handler")
    else Error (static_assertion_failed
                  "CompletionToken requirements not met (Signature mismatch)").
Proof.
  intros HC. unfold Newer.construct. rewrite HC. simpl.
  unfold instantiate_constructor.
  destruct (newer_async_completion_ok _ _ _ _ HC) as [_ E].
  cbv zeta in E.
  set (run := run_constructor (Newer.constructor C) st token).
  rewrite E. simpl.
  destruct (is_CompletionHandler env (Newer.handler_of C) Sig); [|reflexivity].
  simpl. destruct (is_same CT (Newer.handler_of C)); simpl.
  - now rewrite initializable_lref.
  - now destruct (initializable env (Newer.handler_of C) (rref CT)).
Qed.

Lemma construct_older_unfold env CT Sig st token C :
  Older.async_completion env CT Sig = Ok C ->
  Older.construct env CT Sig st token =
    if is_CompletionHandler env (Older.handler_type C) Sig
    then if initializable env (Older.handler_type C) (rref CT)
         then Ok (run_constructor (Older.constructor C) st token)
         else Error (no_matching_initialization "handler")
    else Error (static_assertion_failed "Handler requirements not met").
Proof.
  intros HC. unfold Older.construct. rewrite HC. simpl.
  unfold instantiate_constructor.
  set (run := run_constructor (Older.constructor C) st token).
  rewrite (older_async_completion_ok _ _ _ _ HC). simpl.
  destruct (is_CompletionHandler env (Older.handler_type C) Sig); [|reflexivity].
  simpl. now destruct (initializable env (Older.handler_type C) (rref CT)).
Qed.

Lemma nth_error_fresh {A : Type} (l : list A) a rest :
  nth_error (l ++ a :: rest) (List.length l) = Some a.
Proof. rewrite nth_error_app2, Nat.sub_diag; [reflexivity | lia]. Qed.

Lemma nth_error_fresh_next {A : Type} (l : list A) a b rest :
  nth_error (l ++ a :: b :: rest) (S (List.length l)) = Some b.
Proof.
  rewrite nth_error_app2 by lia.
  replace (S (List.length l) - List.length l) with 1 by lia. reflexivity.
Qed.

Lemma nth_error_one_past {A : Type} (l : list A) x a y :
  List.length l <= a -> nth_error (l ++ [x]) a = Some y -> a = List.length l /\ y = x.
Proof.
  intros L E. rewrite nth_error_app2 in E by exact L.
  destruct (a - List.length l) as [|k] eqn:D.
  - simpl in E. injection E as <-. split; [lia | reflexivity].
  - simpl in E. destruct k; discriminate.
Qed.

Lemma nth_error_two_past {A : Type} (l : list A) x1 x2 a y :
  List.length l <= a -> nth_error (l ++ [x1; x2]) a = Some y ->
  (a = List.length l /\ y = x1) \/ (a = S (List.length l) /\ y = x2).
Proof.
  intros L E. rewrite nth_error_app2 in E by exact L.
  destruct (a - List.length l) as [|[|k]] eqn:D; simpl in E.
  - injection E as <-. left. split; [lia | reflexivity].
  - injection E as <-. right. split; [lia | reflexivity].
  - destruct k; discriminate.
Qed.

Lemma run_members_order inits token ms :
  forall done st done' st',
    run_members inits token ms done st = Some (done', st') ->
    map fst done' = map fst done ++ map fst ms.
Proof.
  induction ms as [|[n m] rest IH]; intros done st done' st' E; simpl in E.
  - injection E as <- <-. now rewrite app_nil_r.
  - destruct (lookup n inits) as [e|]; [|discriminate].
    destruct (eval token done e) as [src|]; [|discriminate].
    destruct (init_member st m (of_own_type m e) src) as [a st1].
    apply IH in E. rewrite E, map_app, <- app_assoc. reflexivity.
Qed.

Lemma newer_construct_shape env CT Sig st token done st' :
  Newer.construct env CT Sig st token = Ok (Some (done, st')) ->
  exists C,
    Newer.async_completion env CT Sig = Ok C /\
    run_constructor (Newer.constructor C) st token = Some (done, st') /\
    ((done, st') =
       ([("completion_handler", token); ("result", List.length st)],
        st ++ [async_result_ctor (Newer.handler_of C) token]) \/
     (done, st') =
       ([("completion_handler", List.length st); ("result", S (List.length st))],
        st ++ [plain (remove_reference (Newer.handler_of C))
                 (constructed_from token (forwarded_as CT));
               async_result_ctor (Newer.handler_of C) (List.length st)])).
Proof.
  intros E.
  destruct (Newer.async_completion env CT Sig) as [C|d] eqn:HC;
    [|unfold Newer.construct in E; rewrite HC in E; discriminate].
  exists C. split; [reflexivity|].
  rewrite (construct_newer_unfold _ _ _ st token _ HC) in E.
  destruct (is_CompletionHandler env (Newer.handler_of C) Sig); [|discriminate].
  destruct (is_same CT (Newer.handler_of C) ||
            initializable env (Newer.handler_of C) (rref CT)); [|discriminate].
  injection E as E. split; [exact E|].
  rewrite (newer_run_constructor _ _ _ _ st token HC) in E.
  injection E as E.
  destruct (is_same CT (Newer.handler_of C));
    [|destruct (is_reference (Newer.handler_of C) &&
                reference_related (remove_reference CT)
                  (remove_reference (Newer.handler_of C)))];
    rewrite <- E; auto.
Qed.

Lemma older_construct_shape env CT Sig st token done st' :
  Older.construct env CT Sig st token = Ok (Some (done, st')) ->
  exists C,
    Older.async_completion env CT Sig = Ok C /\
    run_constructor (Older.constructor C) st token = Some (done, st') /\
    ((done, st') =
       ([("handler", token); ("result", List.length st)],
        st ++ [asio_carrier (asio_async_result_ctor (Older.handler_type C) token)]) \/
     (done, st') =
       ([("handler", List.length st); ("result", S (List.length st))],
        st ++ [plain (remove_reference (Older.handler_type C))
                 (constructed_from token (forwarded_as CT));
               asio_carrier (asio_async_result_ctor (Older.handler_type C)
                               (List.length st))])).
Proof.
  intros E.
  destruct (Older.async_completion env CT Sig) as [C|d] eqn:HC;
    [|unfold Older.construct in E; rewrite HC in E; discriminate].
  exists C. split; [reflexivity|].
  rewrite (construct_older_unfold _ _ _ st token _ HC) in E.
  destruct (is_CompletionHandler env (Older.handler_type C) Sig); [|discriminate].
  destruct (initializable env (Older.handler_type C) (rref CT)); [|discriminate].
  injection E as E. split; [exact E|].
  rewrite (older_run_constructor _ _ _ _ st token HC) in E.
  injection E as E.
  destruct (is_reference (Older.handler_type C) &&
            reference_related (remove_reference CT)
              (remove_reference (Older.handler_type C)));
    rewrite <- E; auto.
Qed.

(** C1, as amended.  Whenever the construction builds: in the revised
    header the Binder binds its handler member, a reference, to the
    caller's token and constructs nothing when the token type is the
    resolved handler type; otherwise the member has the handler type
    and is initialised from the forwarded token, which constructs the
    handler in fresh storage, unless the handler type is a reference
    to the type of the token, which is bound to the token.  In the
    older header the member always has the handler type and is
    initialised from the forwarded token, so that a handler of object
    type is constructed in fresh storage also when it has the type of
    the token. *)
Theorem binder_borrows_or_forwards env CT Sig st token done st' :
  (Newer.construct env CT Sig st token = Ok (Some (done, st')) ->
   exists H,
     Newer.BEAST_HANDLER_TYPE env CT Sig = Ok H /\
     (done, st') =
       if is_same CT H
       then ([("completion_handler", token); ("result", List.length st)],
             st ++ [async_result_ctor H token])
       else if is_reference H &&
               reference_related (remove_reference CT) (remove_reference H)
       then ([("completion_handler", token); ("result", List.length st)],
             st ++ [async_result_ctor H token])
       else ([("completion_handler", List.length st);
              ("result", S (List.length st))],
             st ++ [plain (remove_reference H)
                      (constructed_from token (forwarded_as CT));
                    async_result_ctor H (List.length st)])) /\
  (Older.construct env CT Sig st token = Ok (Some (done, st')) ->
   exists C,
     Older.async_completion env CT Sig = Ok C /\
     (done, st') =
       if is_reference (Older.handler_type C) &&
          reference_related (remove_reference CT)
            (remove_reference (Older.handler_type C))
       then ([("handler", token); ("result", List.length st)],
             st ++ [asio_carrier (asio_async_result_ctor (Older.handler_type C) token)])
       else ([("handler", List.length st); ("result", S (List.length st))],
             st ++ [plain (remove_reference (Older.handler_type C))
                      (constructed_from token (forwarded_as CT));
                    asio_carrier (asio_async_result_ctor (Older.handler_type C)
                                    (List.length st))])).
Proof.
  split; intros E.
  - destruct (newer_construct_shape _ _ _ _ _ _ _ E) as (C & HC & Run & _).
    exists (Newer.handler_of C). split.
    + unfold Newer.BEAST_HANDLER_TYPE.
      destruct (newer_async_completion_ok _ _ _ _ HC) as [-> _]. reflexivity.
    + rewrite (newer_run_constructor _ _ _ _ st token HC) in Run.
      now injection Run as <-.
  - destruct (older_construct_shape _ _ _ _ _ _ _ E) as (C & HC & Run & _).
    exists C. split; [exact HC|].
    rewrite (older_run_constructor _ _ _ _ st token HC) in Run.
    now injection Run as <-.
Qed.

Lemma binder_borrows_or_forwards_witness :
  (exists H,
     Newer.BEAST_HANDLER_TYPE Example.plain_env Example.callback Example.signature
       = Ok H /\
     ([("completion_handler", 0); ("result", 1)],
      [plain Example.callback caller_owned; async_result_ctor Example.callback 0])
     = if is_same Example.callback H
       then ([("completion_handler", 0); ("result", 1)],
             Example.caller Example.callback ++ [async_result_ctor H 0])
       else if is_reference H &&
               reference_related (remove_reference Example.callback)
                 (remove_reference H)
       then ([("completion_handler", 0); ("result", 1)],
             Example.caller Example.callback ++ [async_result_ctor H 0])
       else ([("completion_handler", 1); ("result", 2)],
             Example.caller Example.callback ++
             [plain (remove_reference H)
                (constructed_from 0 (forwarded_as Example.callback));
              async_result_ctor H 1])) /\
  (exists H,
     Newer.BEAST_HANDLER_TYPE Example.future_env Example.use_future_t
       Example.signature = Ok H /\
     ([("completion_handler", 1); ("result", 2)],
      [plain Example.use_future_t caller_owned;
       plain Example.promise_handler (constructed_from 0 xvalue);
       async_result_ctor Example.promise_handler 1])
     = if is_same Example.use_future_t H
       then ([("completion_handler", 0); ("result", 1)],
             Example.caller Example.use_future_t ++ [async_result_ctor H 0])
       else if is_reference H &&
               reference_related (remove_reference Example.use_future_t)
                 (remove_reference H)
       then ([("completion_handler", 0); ("result", 1)],
             Example.caller Example.use_future_t ++ [async_result_ctor H 0])
       else ([("completion_handler", 1); ("result", 2)],
             Example.caller Example.use_future_t ++
             [plain (remove_reference H)
                (constructed_from 0 (forwarded_as Example.use_future_t));
              async_result_ctor H 1])) /\
  (exists C,
     Older.async_completion Example.plain_env Example.callback Example.signature
       = Ok C /\
     ([("handler", 1); ("result", 2)],
      [plain Example.callback caller_owned;
       plain Example.callback (constructed_from 0 xvalue);
       asio_carrier (asio_async_result_ctor Example.callback 1)])
     = if is_reference (Older.handler_type C) &&
          reference_related (remove_reference Example.callback)
            (remove_reference (Older.handler_type C))
       then ([("handler", 0); ("result", 1)],
             Example.caller Example.callback ++
             [asio_carrier (asio_async_result_ctor (Older.handler_type C) 0)])
       else ([("handler", 1); ("result", 2)],
             Example.caller Example.callback ++
             [plain (remove_reference (Older.handler_type C))
                (constructed_from 0 (forwarded_as Example.callback));
              asio_carrier (asio_async_result_ctor (Older.handler_type C) 1)])).
Proof.
  split; [|split].
  - exact (proj1 (binder_borrows_or_forwards Example.plain_env Example.callback
                    Example.signature (Example.caller Example.callback) 0
                    [("completion_handler", 0); ("result", 1)]
                    [plain Example.callback caller_owned;
                     async_result_ctor Example.callback 0])
             eq_refl).
  - exact (proj1 (binder_borrows_or_forwards Example.future_env Example.use_future_t
                    Example.signature (Example.caller Example.use_future_t) 0
                    [("completion_handler", 1); ("result", 2)]
                    [plain Example.use_future_t caller_owned;
                     plain Example.promise_handler (constructed_from 0 xvalue);
                     async_result_ctor Example.promise_handler 1])
             eq_refl).
  - exact (proj2 (binder_borrows_or_forwards Example.plain_env Example.callback
                    Example.signature (Example.caller Example.callback) 0
                    [("handler", 1); ("result", 2)]
                    [plain Example.callback caller_owned;
                     plain Example.callback (constructed_from 0 xvalue);
                     asio_carrier (asio_async_result_ctor Example.callback 1)])
             eq_refl).
Defined.

(** C1, as stated, fails on the older header: for the plain callback,
    whose type is the resolved handler type, the Binder's handler is a
    second object, move-constructed from the token. *)
Lemma older_binder_does_not_borrow :
  ~ (forall env CT Sig st token C done st',
       Older.async_completion env CT Sig = Ok C ->
       CT = Older.handler_type C ->
       run_constructor (Older.constructor C) st token = Some (done, st') ->
       lookup "handler" done = Some token /\
       forall a T src c, nth_error st' a = Some (plain T (constructed_from src c)) ->
                         nth_error st a = Some (plain T (constructed_from src c))).
Proof.
  intros claim.
  destruct (claim Example.plain_env Example.callback Example.signature
              (Example.caller Example.callback) 0 _ _ _ eq_refl eq_refl eq_refl)
    as [borrowed _].
  discriminate borrowed.
Qed.

(** ** The primary templates *)

Lemma primary_inv sp T Sig :
  boost_asio.primary sp T Sig = true ->
  is_reference T = false /\
  boost_asio.handler_type sp T Sig = T /\
  boost_asio.of_async_result sp T = None.
Proof.
  unfold boost_asio.primary. intros P.
  apply andb_prop in P as [P P4]. apply andb_prop in P as [P P3].
  apply andb_prop in P as [P1 P2].
  apply negb_true_iff in P1. apply is_same_true in P2, P3.
  destruct (boost_asio.of_handler_type sp T Sig) eqn:E1; [discriminate|].
  destruct (boost_asio.of_async_result sp T) eqn:E2; [discriminate|].
  repeat split; trivial.
  unfold boost_asio.handler_type.
  assert (R : remove_reference T = T) by (destruct T; try reflexivity; discriminate).
  rewrite R, P2, P3.
  destruct T; try discriminate P1; simpl; now rewrite E1.
Qed.

Lemma primary_async_result sp invocable T Sig :
  boost_asio.primary sp T Sig = true ->
  let env := boost_asio.env sp invocable in
  (exists A, Newer.async_result env T Sig = Ok A /\
             Newer.completion_handler_type A = T /\
             Newer.return_type A = Void unqualified) /\
  (exists A, Older.async_result env T Sig = Ok A /\
             Older.completion_handler_type A = T /\
             Older.return_type A = Void unqualified).
Proof.
  intros P env. destruct (primary_inv _ _ _ P) as (R & HT & AR).
  assert (RT : boost_asio.async_result_type sp T = Void unqualified)
    by (unfold boost_asio.async_result_type; now rewrite AR).
  split.
  - unfold Newer.async_result, env. simpl. rewrite R, HT, RT. simpl.
    eexists; repeat split.
  - unfold Older.async_result, env. simpl. rewrite R, HT, RT. simpl.
    eexists; repeat split.
Qed.

Lemma primary_get sp invocable T Sig h :
  boost_asio.primary sp T Sig = true ->
  asio_get (boost_asio.env sp invocable) (asio_async_result_ctor T h) = void_value.
Proof.
  intros P. destruct (primary_inv _ _ _ P) as (_ & _ & AR).
  unfold asio_get. simpl. unfold boost_asio.async_result_get. now rewrite AR.
Qed.

Lemma pointer_is_not_its_pointee T : forall q, Pointer q T <> T.
Proof.
  induction T; intros q' E; try discriminate E.
  injection E as _ E. exact (IHT _ E).
Qed.

Lemma unadapted_inv sp T Sig :
  boost_asio.unadapted sp T Sig = true ->
  is_reference T = false ->
  boost_asio.handler_type sp T Sig = boost_asio.function_to_pointer (remove_cv T) /\
  boost_asio.of_async_result sp (boost_asio.function_to_pointer (remove_cv T)) = None.
Proof.
  unfold boost_asio.unadapted. intros U R.
  destruct (boost_asio.of_handler_type sp T Sig) eqn:E1; [discriminate|].
  destruct (boost_asio.of_handler_type sp (remove_cv T) Sig) eqn:E2; [discriminate|].
  destruct (boost_asio.of_handler_type sp
              (boost_asio.function_to_pointer (remove_cv T)) Sig) eqn:E3;
    [discriminate|].
  destruct (boost_asio.of_async_result sp
              (boost_asio.function_to_pointer (remove_cv T))) eqn:E4;
    [discriminate|].
  split; [|reflexivity].
  assert (RR : remove_reference T = T) by (destruct T; try reflexivity; discriminate).
  assert (HT : boost_asio.handler_type sp T Sig =
               boost_asio.first_specialized sp
                 [T; remove_cv T; boost_asio.function_to_pointer (remove_cv T)]
                 Sig (boost_asio.function_to_pointer (remove_cv T))).
  { unfold boost_asio.handler_type. rewrite RR.
    destruct T; try discriminate R; reflexivity. }
  rewrite HT. cbn [boost_asio.first_specialized]. now rewrite E1, E2, E3.
Qed.

(** C2, as amended.  For a token type that can be called as the
    signature says and for which nothing is registered, [async_result]
    of either header is rejected by its static assertion when the type
    is a reference; otherwise it resolves, as handler type, the token
    type without its qualifiers, and the pointer to it for a function
    of up to five parameters, void as the return type, and a [get()]
    that returns the void value.  The handler type is the token type
    exactly when the token type has no qualifier and is no such
    function. *)
Theorem invocable_token_resolves_to_its_unqualified_type sp invocable T Sig :
  invocable T Sig = true ->
  boost_asio.unadapted sp T Sig = true ->
  let env := boost_asio.env sp invocable in
  let H := boost_asio.function_to_pointer (remove_cv T) in
  if is_reference T
  then Newer.async_result env T Sig = Error (static_assertion_failed "") /\
       Older.async_result env T Sig = Error (static_assertion_failed "")
  else
    (exists A, Newer.async_result env T Sig = Ok A /\
               Newer.completion_handler_type A = H /\
               Newer.return_type A = Void unqualified) /\
    (exists A, Older.async_result env T Sig = Ok A /\
               Older.completion_handler_type A = H /\
               Older.return_type A = Void unqualified) /\
    (forall h, Newer.get env (asio_async_result_ctor H h) = void_value) /\
    (forall h, Older.get env (asio_async_result_ctor H h) = void_value) /\
    (H = T <-> remove_cv T = T /\ boost_asio.function_to_pointer T = T).
Proof.
  intros _ U env H.
  destruct (is_reference T) eqn:R.
  - unfold Newer.async_result, Older.async_result. now rewrite R.
  - destruct (unadapted_inv _ _ _ U R) as [HT AR]. fold H in HT, AR.
    assert (RT : boost_asio.async_result_type sp H = Void unqualified)
      by (unfold boost_asio.async_result_type; now rewrite AR).
    assert (G : forall h, asio_get env (asio_async_result_ctor H h) = void_value)
      by (intros h; unfold asio_get; simpl;
          unfold boost_asio.async_result_get; now rewrite AR).
    split; [|split; [|split; [exact G|split; [exact G|]]]].
    + unfold Newer.async_result, env. simpl. rewrite R, HT, RT. simpl.
      eexists; repeat split.
    + unfold Older.async_result, env. simpl. rewrite R, HT, RT. simpl.
      eexists; repeat split.
    + unfold H. split.
      * intros E.
        destruct (remove_cv T) as [| | | | | |r ps] eqn:RC; simpl in E;
          try (split; [exact E | rewrite <- E; reflexivity]).
        assert (TF : T = Function r ps)
          by (destruct T; simpl in RC; try discriminate RC; exact RC).
        destruct (Nat.leb (List.length ps) 5) eqn:L.
        -- rewrite TF in E. now apply pointer_is_not_its_pointee in E.
        -- split; [exact E|]. rewrite <- E. simpl. now rewrite L.
      * intros [E1 E2]. now rewrite E1, E2.
Qed.

Lemma invocable_token_resolves_to_its_unqualified_type_witness :
  (exists A, Newer.async_result
               (boost_asio.env boost_asio.none Example.invocable_const)
               (add_const Example.callback) Example.signature = Ok A /\
             Newer.completion_handler_type A = Example.callback /\
             Newer.return_type A = Void unqualified) /\
  (exists A, Older.async_result
               (boost_asio.env boost_asio.none Example.invocable_const)
               (add_const Example.callback) Example.signature = Ok A /\
             Older.completion_handler_type A = Example.callback /\
             Older.return_type A = Void unqualified) /\
  (forall h, Newer.get (boost_asio.env boost_asio.none Example.invocable_const)
               (asio_async_result_ctor Example.callback h) = void_value) /\
  (forall h, Older.get (boost_asio.env boost_asio.none Example.invocable_const)
               (asio_async_result_ctor Example.callback h) = void_value) /\
  (Example.callback = add_const Example.callback <->
   remove_cv (add_const Example.callback) = add_const Example.callback /\
   boost_asio.function_to_pointer (add_const Example.callback)
     = add_const Example.callback).
Proof.
  exact (invocable_token_resolves_to_its_unqualified_type boost_asio.none
           Example.invocable_const (add_const Example.callback) Example.signature
           eq_refl eq_refl).
Defined.

(** C2, as stated, fails: [const callback] can be called as the
    signature says and nothing is registered for it, yet [async_result]
    resolves [callback], not the token type, as the handler type. *)
Lemma invocable_qualified_token_is_not_its_handler :
  ~ (forall sp invocable T Sig,
       invocable T Sig = true ->
       boost_asio.unadapted sp T Sig = true ->
       exists A, Newer.async_result (boost_asio.env sp invocable) T Sig = Ok A /\
                 Newer.completion_handler_type A = T).
Proof.
  intros claim.
  destruct (claim boost_asio.none Example.invocable_const
              (add_const Example.callback) Example.signature eq_refl eq_refl)
    as (A & E & Same).
  injection E as <-. discriminate Same.
Qed.

(** ** The static assertion of the constructor *)

(** C3.  Constructing a Binder instantiates its constructor, whose body
    asserts [is_CompletionHandler] of the resolved handler type and the
    signature.  Where the class itself instantiates and the assertion
    fails, the construction ends with the assertion's diagnostic, for
    every store and token; where it holds, the construction either does
    not build, for a handler that cannot be initialised from the token,
    or builds and runs to completion.  Nothing is ever run with a
    handler type that fails the assertion. *)
Theorem binder_checks_signature env CT Sig st token :
  match Newer.async_completion env CT Sig with
  | Ok C =>
      if is_CompletionHandler env (Newer.handler_of C) Sig
      then Newer.construct env CT Sig st token
             = Error (no_matching_initialization "completion_handler") \/
           exists done st',
             Newer.construct env CT Sig st token = Ok (Some (done, st'))
      else Newer.construct env CT Sig st token =
             Error (static_assertion_failed
                      "CompletionToken requirements not met (Signature mismatch)")
  | Error d => Newer.construct env CT Sig st token = Error d
  end /\
  match Older.async_completion env CT Sig with
  | Ok C =>
      if is_CompletionHandler env (Older.handler_type C) Sig
      then Older.construct env CT Sig st token
             = Error (no_matching_initialization "handler") \/
           exists done st',
             Older.construct env CT Sig st token = Ok (Some (done, st'))
      else Older.construct env CT Sig st token =
             Error (static_assertion_failed "Handler requirements not met")
  | Error d => Older.construct env CT Sig st token = Error d
  end.
Proof.
  split.
  - destruct (Newer.async_completion env CT Sig) as [C|d] eqn:HC;
      [|unfold Newer.construct; now rewrite HC].
    rewrite (construct_newer_unfold _ _ _ st token _ HC).
    rewrite (newer_run_constructor _ _ _ _ st token HC).
    destruct (is_CompletionHandler env (Newer.handler_of C) Sig); [|reflexivity].
    destruct (is_same CT (Newer.handler_of C) ||
              initializable env (Newer.handler_of C) (rref CT));
      [right|left; reflexivity].
    destruct (is_same CT (Newer.handler_of C));
      [|destruct (is_reference (Newer.handler_of C) &&
                  reference_related (remove_reference CT)
                    (remove_reference (Newer.handler_of C)))];
      do 2 eexists; reflexivity.
  - destruct (Older.async_completion env CT Sig) as [C|d] eqn:HC;
      [|unfold Older.construct; now rewrite HC].
    rewrite (construct_older_unfold _ _ _ st token _ HC).
    rewrite (older_run_constructor _ _ _ _ st token HC).
    destruct (is_CompletionHandler env (Older.handler_type C) Sig); [|reflexivity].
    destruct (initializable env (Older.handler_type C) (rref CT));
      [right|left; reflexivity].
    destruct (is_reference (Older.handler_type C) &&
              reference_related (remove_reference CT)
                (remove_reference (Older.handler_type C)));
      do 2 eexists; reflexivity.
Qed.

(** ** The two headers side by side *)

Lemma remove_cv_idempotent T : remove_cv (remove_cv T) = remove_cv T.
Proof. induction T; simpl; congruence. Qed.

Lemma decay_object T :
  is_array (remove_reference T) = false ->
  is_function (remove_reference T) = false ->
  decay T = remove_cv (remove_reference T).
Proof.
  unfold decay. destruct (remove_reference T); simpl; intros; congruence.
Qed.

Lemma decay_idempotent_object T :
  is_reference (remove_reference T) = false ->
  is_array (remove_reference T) = false ->
  is_function (remove_reference T) = false ->
  decay (decay T) = decay T.
Proof.
  intros R A F. rewrite (decay_object _ A F).
  destruct (remove_reference T); try discriminate; reflexivity.
Qed.


Lemma is_reference_decay_object T :
  is_reference (remove_reference T) = false ->
  is_array (remove_reference T) = false ->
  is_function (remove_reference T) = false ->
  is_reference (decay T) = false.
Proof.
  intros R A F. rewrite (decay_object _ A F).
  destruct (remove_reference T); try discriminate; reflexivity.
Qed.




Lemma handler_value_prefix st ext h :
  h < List.length st -> handler_value (st ++ ext) h = handler_value st h.
Proof.
  intros L. unfold handler_value. now rewrite nth_error_app1.
Qed.





(** ** A token nothing resolves *)




(** ** The Binder once constructed *)



(** C10.  In both headers the members of a constructed Binder were
    initialised in the order of their declaration, the handler member
    before [result]; the carrier is bound to the very object the handler
    member designates, which exists before the carrier does, and the
    construction makes no object out of that handler. *)
Theorem handler_is_initialized_before_result env CT Sig st token done st' :
  token < List.length st ->
  (Newer.construct env CT Sig st token = Ok (Some (done, st')) ->
   exists C h r impl_,
     Newer.async_completion env CT Sig = Ok C /\
     map fst done = map fst (members (Newer.constructor C)) /\
     done = [("completion_handler", h); ("result", r)] /\
     h < r /\
     nth_error st' r = Some (beast_carrier impl_) /\
     bound_handler impl_ = h /\
     (forall a T src c, List.length st <= a ->
        nth_error st' a = Some (plain T (constructed_from src c)) -> src <> h)) /\
  (Older.construct env CT Sig st token = Ok (Some (done, st')) ->
   exists C h r impl_,
     Older.async_completion env CT Sig = Ok C /\
     map fst done = map fst (members (Older.constructor C)) /\
     done = [("handler", h); ("result", r)] /\
     h < r /\
     nth_error st' r = Some (asio_carrier impl_) /\
     bound_handler impl_ = h /\
     (forall a T src c, List.length st <= a ->
        nth_error st' a = Some (plain T (constructed_from src c)) -> src <> h)).
Proof.
  intros Tok. split; intros E.
  - destruct (newer_construct_shape _ _ _ _ _ _ _ E) as (C & HC & Run & Shape).
    exists C.
    assert (Order : map fst done = map fst (members (Newer.constructor C)))
      by (apply (run_members_order _ _ _ _ _ _ _ Run)).
    destruct Shape as [S|S]; injection S as -> ->.
    + exists token, (List.length st), (asio_async_result_ctor (Newer.handler_of C) token).
      repeat (split; [solve [trivial | lia | reflexivity]|]).
      split; [|split; [reflexivity|]].
      * apply nth_error_fresh.
      * intros a T src c La Ea.
        destruct (nth_error_one_past _ _ _ _ La Ea) as [_ I]. discriminate I.
    + exists (List.length st), (S (List.length st)),
        (asio_async_result_ctor (Newer.handler_of C) (List.length st)).
      repeat (split; [solve [trivial | lia | reflexivity]|]).
      split; [|split; [reflexivity|]].
      * apply nth_error_fresh_next.
      * intros a T src c La Ea.
        destruct (nth_error_two_past _ _ _ _ _ La Ea) as [[_ I]|[_ I]];
          [|discriminate I].
        injection I as _ <- _. lia.
  - destruct (older_construct_shape _ _ _ _ _ _ _ E) as (C & HC & Run & Shape).
    exists C.
    assert (Order : map fst done = map fst (members (Older.constructor C)))
      by (apply (run_members_order _ _ _ _ _ _ _ Run)).
    destruct Shape as [S|S]; injection S as -> ->.
    + exists token, (List.length st),
        (asio_async_result_ctor (Older.handler_type C) token).
      repeat (split; [solve [trivial | lia | reflexivity]|]).
      split; [|split; [reflexivity|]].
      * apply nth_error_fresh.
      * intros a T src c La Ea.
        destruct (nth_error_one_past _ _ _ _ La Ea) as [_ I]. discriminate I.
    + exists (List.length st), (S (List.length st)),
        (asio_async_result_ctor (Older.handler_type C) (List.length st)).
      repeat (split; [solve [trivial | lia | reflexivity]|]).
      split; [|split; [reflexivity|]].
      * apply nth_error_fresh_next.
      * intros a T src c La Ea.
        destruct (nth_error_two_past _ _ _ _ _ La Ea) as [[_ I]|[_ I]];
          [|discriminate I].
        injection I as _ <- _. lia.
Qed.

Lemma handler_is_initialized_before_result_witness :
  (exists C h r impl_,
     Newer.async_completion Example.plain_env Example.callback Example.signature
       = Ok C /\
     map fst [("completion_handler", 0); ("result", 1)]
       = map fst (members (Newer.constructor C)) /\
     [("completion_handler", 0); ("result", 1)]
       = [("completion_handler", h); ("result", r)] /\
     h < r /\
     nth_error [plain Example.callback caller_owned;
                async_result_ctor Example.callback 0] r
       = Some (beast_carrier impl_) /\
     bound_handler impl_ = h /\
     (forall a T src c, 1 <= a ->
        nth_error [plain Example.callback caller_owned;
                   async_result_ctor Example.callback 0] a
          = Some (plain T (constructed_from src c)) -> src <> h)) /\
  (exists C h r impl_,
     Older.async_completion Example.plain_env (LRef Example.callback)
       Example.signature = Ok C /\
     map fst [("handler", 1); ("result", 2)]
       = map fst (members (Older.constructor C)) /\
     [("handler", 1); ("result", 2)] = [("handler", h); ("result", r)] /\
     h < r /\
     nth_error [plain Example.callback caller_owned;
                plain Example.callback (constructed_from 0 lvalue);
                asio_carrier (asio_async_result_ctor Example.callback 1)] r
       = Some (asio_carrier impl_) /\
     bound_handler impl_ = h /\
     (forall a T src c, 1 <= a ->
        nth_error [plain Example.callback caller_owned;
                   plain Example.callback (constructed_from 0 lvalue);
                   asio_carrier (asio_async_result_ctor Example.callback 1)] a
          = Some (plain T (constructed_from src c)) -> src <> h)).
Proof.
  split.
  - exact (proj1 (handler_is_initialized_before_result Example.plain_env
                    Example.callback Example.signature
                    (Example.caller Example.callback) 0
                    [("completion_handler", 0); ("result", 1)]
                    [plain Example.callback caller_owned;
                     async_result_ctor Example.callback 0]
                    (Nat.lt_0_succ 0))
             eq_refl).
  - exact (proj2 (handler_is_initialized_before_result Example.plain_env
                    (LRef Example.callback) Example.signature
                    (Example.caller Example.callback) 0
                    [("handler", 1); ("result", 2)]
                    [plain Example.callback caller_owned;
                     plain Example.callback (constructed_from 0 lvalue);
                     asio_carrier (asio_async_result_ctor Example.callback 1)]
                    (Nat.lt_0_succ 0))
             eq_refl).
Defined.

(** ** The carrier cannot be duplicated *)

Lemma deleted_copies_forbid_every_duplication a b m :
  use_special_member
    [ {| sm_which := copy_constructor; sm_access := a; sm_definition := deleted |};
      {| sm_which := copy_assignment; sm_access := b; sm_definition := deleted |} ] m
  = Error (use_of_deleted_function "async_result").
Proof. destruct m; reflexivity. Qed.

(** C8, as amended.  In both headers [async_result] of a reference type
    is rejected by the static assertion, and for an instance that
    exists the copy constructor and the copy assignment are deleted; no
    move operation is declared, so an rvalue selects the deleted copy
    as well.  The [result] member of the revised Binder is such an
    instance and cannot be duplicated.  The [result] member of the
    older Binder is a [boost::asio::async_result] of the handler type,
    which these deleted operations do not protect. *)
Theorem async_result_is_not_duplicable env T Sig :
  (is_reference T = true ->
     Newer.async_result env T Sig = Error (static_assertion_failed "") /\
     Older.async_result env T Sig = Error (static_assertion_failed "")) /\
  (forall A, Newer.async_result env T Sig = Ok A ->
     is_reference T = false /\
     forall m, use_special_member (Newer.special_members A) m
               = Error (use_of_deleted_function "async_result")) /\
  (forall A, Older.async_result env T Sig = Ok A ->
     is_reference T = false /\
     forall m, use_special_member (Older.special_members A) m
               = Error (use_of_deleted_function "async_result")) /\
  (forall C, Newer.async_completion env T Sig = Ok C ->
     lookup "result" (members (Newer.constructor C))
       = Some (of_beast_async_result (Newer.handler_of C)) /\
     Newer.async_result env (decay T) Sig = Ok (Newer.result_class C) /\
     forall m, use_special_member (Newer.special_members (Newer.result_class C)) m
               = Error (use_of_deleted_function "async_result")) /\
  (forall C, Older.async_completion env T Sig = Ok C ->
     lookup "result" (members (Older.constructor C))
       = Some (of_asio_async_result (Older.handler_type C))).
Proof.
  split; [|split; [|split; [|split]]].
  - intros R. unfold Newer.async_result, Older.async_result. now rewrite R.
  - intros A E. split; [apply (newer_async_result_ok _ _ _ _ E)|].
    unfold Newer.async_result in E. compile_inv E. subst A.
    apply deleted_copies_forbid_every_duplication.
  - intros A E. split; [apply (older_async_result_ok _ _ _ _ E)|].
    unfold Older.async_result in E. compile_inv E. subst A.
    apply deleted_copies_forbid_every_duplication.
  - intros C HC. destruct (newer_async_completion_ok _ _ _ _ HC) as [HA HK].
    cbv zeta in HK. rewrite HK. split; [reflexivity|]. split; [exact HA|].
    unfold Newer.async_result in HA. compile_inv HA. rewrite <- HA.
    apply deleted_copies_forbid_every_duplication.
  - intros C HC. rewrite (older_async_completion_ok _ _ _ _ HC). reflexivity.
Qed.

Lemma async_result_is_not_duplicable_witness :
  (Newer.async_result Example.plain_env (LRef Example.callback) Example.signature
     = Error (static_assertion_failed "") /\
   Older.async_result Example.plain_env (LRef Example.callback) Example.signature
     = Error (static_assertion_failed "")) /\
  (exists A,
     Newer.async_result Example.plain_env Example.callback Example.signature = Ok A /\
     forall m, use_special_member (Newer.special_members A) m
               = Error (use_of_deleted_function "async_result")) /\
  (exists A,
     Older.async_result Example.plain_env Example.callback Example.signature = Ok A /\
     forall m, use_special_member (Older.special_members A) m
               = Error (use_of_deleted_function "async_result")) /\
  (exists C,
     Newer.async_completion Example.plain_env Example.callback Example.signature
       = Ok C /\
     lookup "result" (members (Newer.constructor C))
       = Some (of_beast_async_result (Newer.handler_of C)) /\
     forall m, use_special_member (Newer.special_members (Newer.result_class C)) m
               = Error (use_of_deleted_function "async_result")) /\
  (exists C,
     Older.async_completion Example.plain_env Example.callback Example.signature
       = Ok C /\
     lookup "result" (members (Older.constructor C))
       = Some (of_asio_async_result (Older.handler_type C))).
Proof.
  split; [|split; [|split; [|split]]].
  - exact (proj1 (async_result_is_not_duplicable Example.plain_env
                    (LRef Example.callback) Example.signature) eq_refl).
  - eexists. split; [reflexivity|].
    exact (proj2 (proj1 (proj2 (async_result_is_not_duplicable Example.plain_env
                                  Example.callback Example.signature)) _ eq_refl)).
  - eexists. split; [reflexivity|].
    exact (proj2 (proj1 (proj2 (proj2 (async_result_is_not_duplicable
                                         Example.plain_env Example.callback
                                         Example.signature))) _ eq_refl)).
  - eexists. split; [reflexivity|].
    pose proof (proj1 (proj2 (proj2 (proj2 (async_result_is_not_duplicable
                                              Example.plain_env Example.callback
                                              Example.signature)))) _ eq_refl)
      as (M & _ & D).
    split; [exact M | exact D].
  - eexists. split; [reflexivity|].
    exact (proj2 (proj2 (proj2 (proj2 (async_result_is_not_duplicable
                                         Example.plain_env Example.callback
                                         Example.signature)))) _ eq_refl).
Defined.

(** C8, as stated, fails on the older header: the carrier of its Binder
    for a plain callback is Boost's primary [async_result], which
    declares no copy operation and is copied by the implicit one. *)
Lemma older_carrier_can_be_copied :
  ~ (forall sp invocable CT Sig C H ds,
       Older.async_completion (boost_asio.env sp invocable) CT Sig = Ok C ->
       lookup "result" (members (Older.constructor C))
         = Some (of_asio_async_result H) ->
       asio_async_result_special_members sp H = Some ds ->
       exists d, use_special_member ds copy_constructor = Error d).
Proof.
  intros claim.
  destruct (claim boost_asio.none Example.invocable Example.callback
              Example.signature _ _ _ eq_refl eq_refl eq_refl) as [d E].
  discriminate E.
Qed.

(** ** Decay of the token type *)





(** * Further properties of the two headers *)

(** ** Which diagnostic a build ends with *)

Lemma is_reference_decay T :
  is_reference (remove_reference T) = false -> is_reference (decay T) = false.
Proof.
  unfold decay. intros R.
  destruct (remove_reference T); try reflexivity; discriminate R.
Qed.

(** X1.  Through the macros and through [async_completion] of the
    revised header the static assertion of [async_result] never fires,
    whatever references the token type carries: they hand
    [async_result] the decayed type.  A failure there is a trait without
    its member [type]. *)
Theorem decayed_token_passes_reference_assertion env CT Sig msg :
  is_reference (remove_reference CT) = false ->
  Newer.BEAST_HANDLER_TYPE env CT Sig <> Error (static_assertion_failed msg) /\
  Newer.BEAST_INITFN_RESULT_TYPE env CT Sig <> Error (static_assertion_failed msg) /\
  Newer.async_completion env CT Sig <> Error (static_assertion_failed msg).
Proof.
  intros R. apply is_reference_decay in R.
  unfold Newer.BEAST_HANDLER_TYPE, Newer.BEAST_INITFN_RESULT_TYPE,
    Newer.async_completion, Newer.async_result.
  rewrite R. simpl.
  destruct (asio_handler_type env (decay CT) Sig) as [H|]; simpl;
    [|repeat split; discriminate].
  destruct (asio_async_result_type env H); simpl; repeat split; discriminate.
Qed.

Lemma decayed_token_passes_reference_assertion_witness :
  Newer.BEAST_HANDLER_TYPE Example.future_env (LRef Example.use_future_t)
    Example.signature <> Error (static_assertion_failed "") /\
  Newer.BEAST_INITFN_RESULT_TYPE Example.future_env (LRef Example.use_future_t)
    Example.signature <> Error (static_assertion_failed "") /\
  Newer.async_completion Example.future_env (LRef Example.use_future_t)
    Example.signature <> Error (static_assertion_failed "").
Proof.
  exact (decayed_token_passes_reference_assertion Example.future_env
           (LRef Example.use_future_t) Example.signature "" eq_refl).
Defined.

(** X2.  In the revised header the two macros fail together, with the
    same diagnostic; that diagnostic is then the one a construction of
    the Binder ends with.  A construction that fails otherwise fails at
    the assertion of the constructor, the handler type being resolved
    and not a completion handler for the signature, or, the assertion
    holding, at the initialisation of the handler member, the token
    type being another than the handler type, from which the handler
    cannot be initialised. *)
Theorem newer_construction_diagnostic env CT Sig st token d :
  (Newer.BEAST_HANDLER_TYPE env CT Sig = Error d <->
   Newer.BEAST_INITFN_RESULT_TYPE env CT Sig = Error d) /\
  (Newer.BEAST_HANDLER_TYPE env CT Sig = Error d ->
   Newer.construct env CT Sig st token = Error d) /\
  (Newer.construct env CT Sig st token = Error d ->
   Newer.BEAST_HANDLER_TYPE env CT Sig = Error d \/
   (d = static_assertion_failed
          "CompletionToken requirements not met (Signature mismatch)" /\
    exists H, Newer.BEAST_HANDLER_TYPE env CT Sig = Ok H /\
              is_CompletionHandler env H Sig = false) \/
   (d = no_matching_initialization "completion_handler" /\
    exists H, Newer.BEAST_HANDLER_TYPE env CT Sig = Ok H /\
              is_CompletionHandler env H Sig = true /\
              is_same CT H = false /\
              initializable env H (rref CT) = false)).
Proof.
  destruct (Newer.async_completion env CT Sig) as [C|d'] eqn:HC.
  - destruct (newer_async_completion_ok _ _ _ _ HC) as [HA _].
    rewrite (construct_newer_unfold _ _ _ st token _ HC).
    unfold Newer.BEAST_HANDLER_TYPE, Newer.BEAST_INITFN_RESULT_TYPE.
    rewrite HA. simpl. fold (Newer.handler_of C).
    split; [split; discriminate|]. split; [discriminate|].
    destruct (is_CompletionHandler env (Newer.handler_of C) Sig) eqn:I.
    + destruct (is_same CT (Newer.handler_of C)) eqn:Same; simpl;
        [discriminate|].
      destruct (initializable env (Newer.handler_of C) (rref CT)) eqn:K;
        [discriminate|].
      intros E. injection E as <-. right. right. split; [reflexivity|].
      exists (Newer.handler_of C). auto.
    + intros E. injection E as <-. right. left. split; [reflexivity|].
      exists (Newer.handler_of C). auto.
  - unfold Newer.construct. rewrite HC. simpl.
    unfold Newer.async_completion in HC.
    unfold Newer.BEAST_HANDLER_TYPE, Newer.BEAST_INITFN_RESULT_TYPE.
    destruct (Newer.async_result env (decay CT) Sig) as [A|d'']; simpl in *;
      [discriminate HC|].
    injection HC as ->.
    split; [split; intros E; injection E as ->; reflexivity|].
    split; [intros E; injection E as ->; reflexivity|].
    intros E. left. injection E as ->. reflexivity.
Qed.

Lemma newer_construction_diagnostic_witness :
  (Newer.construct
     {| asio_handler_type := fun _ _ => None;
        asio_async_result_type := fun _ => None;
        asio_async_result_get := fun _ _ => void_value;
        is_CompletionHandler := fun _ _ => true;
        is_constructible := fun _ _ => true |}
     Example.callback Example.signature (Example.caller Example.callback) 0
   = Error (no_member_named_type "boost::asio::handler_type")) /\
  (Newer.BEAST_HANDLER_TYPE Example.plain_env (add_volatile Example.callback)
     Example.signature = Error (no_matching_initialization "completion_handler") \/
   (no_matching_initialization "completion_handler"
    = static_assertion_failed
        "CompletionToken requirements not met (Signature mismatch)" /\
    exists H, Newer.BEAST_HANDLER_TYPE Example.plain_env
                (add_volatile Example.callback) Example.signature = Ok H /\
              is_CompletionHandler Example.plain_env H Example.signature = false) \/
   (no_matching_initialization "completion_handler"
    = no_matching_initialization "completion_handler" /\
    exists H, Newer.BEAST_HANDLER_TYPE Example.plain_env
                (add_volatile Example.callback) Example.signature = Ok H /\
              is_CompletionHandler Example.plain_env H Example.signature = true /\
              is_same (add_volatile Example.callback) H = false /\
              initializable Example.plain_env H
                (rref (add_volatile Example.callback)) = false)).
Proof.
  split.
  - exact (proj1 (proj2 (newer_construction_diagnostic
                           {| asio_handler_type := fun _ _ => None;
                              asio_async_result_type := fun _ => None;
                              asio_async_result_get := fun _ _ => void_value;
                              is_CompletionHandler := fun _ _ => true;
                              is_constructible := fun _ _ => true |}
                           Example.callback Example.signature
                           (Example.caller Example.callback) 0
                           (no_member_named_type "boost::asio::handler_type")))
             eq_refl).
  - exact (proj2 (proj2 (newer_construction_diagnostic Example.plain_env
                           (add_volatile Example.callback) Example.signature
                           (Example.caller (add_volatile Example.callback)) 0
                           (no_matching_initialization "completion_handler")))
             eq_refl).
Defined.

(** X3.  In the older header the macro never ends with a static
    assertion, also for a reference token, which [async_result] of the
    same header rejects; it does not resolve a handler type that no
    data member can have; where it resolves for a token that is no
    reference, it names the [return_type] of [async_result].  A failure
    of the macro is the diagnostic of every construction of the Binder;
    a construction that fails otherwise fails at the assertion of the
    constructor or, the assertion holding, at the initialisation of the
    handler member. *)
Theorem older_construction_diagnostic env CT Sig st token d :
  (forall msg, Older.BEAST_INITFN_RESULT_TYPE env CT Sig
               <> Error (static_assertion_failed msg)) /\
  (forall H, asio_handler_type env CT Sig = Some H ->
             valid_data_member H = false ->
             forall R, Older.BEAST_INITFN_RESULT_TYPE env CT Sig <> Ok R) /\
  (is_reference CT = false ->
   forall R, Older.BEAST_INITFN_RESULT_TYPE env CT Sig = Ok R ->
   bind (Older.async_result env CT Sig) (fun A => Ok (Older.return_type A)) = Ok R) /\
  (Older.BEAST_INITFN_RESULT_TYPE env CT Sig = Error d ->
   Older.construct env CT Sig st token = Error d) /\
  (Older.construct env CT Sig st token = Error d ->
   Older.BEAST_INITFN_RESULT_TYPE env CT Sig = Error d \/
   (d = static_assertion_failed "Handler requirements not met" /\
    exists C, Older.async_completion env CT Sig = Ok C /\
              Older.BEAST_INITFN_RESULT_TYPE env CT Sig = Ok (Older.result_type C) /\
              is_CompletionHandler env (Older.handler_type C) Sig = false) \/
   (d = no_matching_initialization "handler" /\
    exists C, Older.async_completion env CT Sig = Ok C /\
              is_CompletionHandler env (Older.handler_type C) Sig = true /\
              initializable env (Older.handler_type C) (rref CT) = false)).
Proof.
  split; [|split; [|split]].
  - intros msg. unfold Older.BEAST_INITFN_RESULT_TYPE, Older.async_completion.
    destruct (asio_handler_type env CT Sig) as [H|]; simpl; [|discriminate].
    destruct (asio_async_result_type env H); simpl; [|discriminate].
    destruct (valid_data_member H); simpl; discriminate.
  - intros H EH V R. unfold Older.BEAST_INITFN_RESULT_TYPE, Older.async_completion.
    rewrite EH. simpl.
    destruct (asio_async_result_type env H); simpl; [|discriminate].
    rewrite V. simpl. discriminate.
  - intros NR R. unfold Older.BEAST_INITFN_RESULT_TYPE, Older.async_completion,
      Older.async_result.
    rewrite NR. simpl.
    destruct (asio_handler_type env CT Sig) as [H|]; simpl; [|discriminate].
    destruct (asio_async_result_type env H); simpl; [|discriminate].
    destruct (valid_data_member H); simpl; [|discriminate].
    intros E. exact E.
  - destruct (Older.async_completion env CT Sig) as [C|d'] eqn:HC.
    + rewrite (construct_older_unfold _ _ _ st token _ HC).
      unfold Older.BEAST_INITFN_RESULT_TYPE. rewrite HC. simpl.
      split; [discriminate|].
      destruct (is_CompletionHandler env (Older.handler_type C) Sig) eqn:I.
      * destruct (initializable env (Older.handler_type C) (rref CT)) eqn:K;
          [discriminate|].
        intros E. injection E as <-. right. right. split; [reflexivity|].
        exists C. auto.
      * intros E. injection E as <-. right. left. split; [reflexivity|].
        exists C. auto.
    + unfold Older.construct, Older.BEAST_INITFN_RESULT_TYPE. rewrite HC. simpl.
      split; [intros E; injection E as ->; reflexivity|].
      intros E. left. injection E as ->. reflexivity.
Qed.

Lemma older_construction_diagnostic_witness :
  (forall R, Older.BEAST_INITFN_RESULT_TYPE Example.plain_env Example.six_parameters
               Example.signature <> Ok R) /\
  (forall R, Older.BEAST_INITFN_RESULT_TYPE Example.plain_env Example.callback
               Example.signature = Ok R ->
   bind (Older.async_result Example.plain_env Example.callback Example.signature)
        (fun A => Ok (Older.return_type A)) = Ok R) /\
  (Older.construct
     {| asio_handler_type := fun _ _ => None;
        asio_async_result_type := fun _ => None;
        asio_async_result_get := fun _ _ => void_value;
        is_CompletionHandler := fun _ _ => true;
        is_constructible := fun _ _ => true |}
     Example.callback Example.signature (Example.caller Example.callback) 0
   = Error (no_member_named_type "boost::asio::handler_type")) /\
  (Older.BEAST_INITFN_RESULT_TYPE Example.plain_env Example.int Example.signature
     = Error (static_assertion_failed "Handler requirements not met") \/
   (static_assertion_failed "Handler requirements not met"
    = static_assertion_failed "Handler requirements not met" /\
    exists C, Older.async_completion Example.plain_env Example.int Example.signature
                = Ok C /\
              Older.BEAST_INITFN_RESULT_TYPE Example.plain_env Example.int
                Example.signature = Ok (Older.result_type C) /\
              is_CompletionHandler Example.plain_env (Older.handler_type C)
                Example.signature = false) \/
   (static_assertion_failed "Handler requirements not met"
    = no_matching_initialization "handler" /\
    exists C, Older.async_completion Example.plain_env Example.int Example.signature
                = Ok C /\
              is_CompletionHandler Example.plain_env (Older.handler_type C)
                Example.signature = true /\
              initializable Example.plain_env (Older.handler_type C)
                (rref Example.int) = false)).
Proof.
  split; [|split; [|split]].
  - exact (proj1 (proj2 (older_construction_diagnostic Example.plain_env
                           Example.six_parameters Example.signature
                           (Example.caller Example.six_parameters) 0
                           (static_assertion_failed "")))
             Example.six_parameters eq_refl eq_refl).
  - exact (proj1 (proj2 (proj2 (older_construction_diagnostic Example.plain_env
                           Example.callback Example.signature
                           (Example.caller Example.callback) 0
                           (static_assertion_failed ""))))
             eq_refl).
  - exact (proj1 (proj2 (proj2 (proj2 (older_construction_diagnostic
                           {| asio_handler_type := fun _ _ => None;
                              asio_async_result_type := fun _ => None;
                              asio_async_result_get := fun _ _ => void_value;
                              is_CompletionHandler := fun _ _ => true;
                              is_constructible := fun _ _ => true |}
                           Example.callback Example.signature
                           (Example.caller Example.callback) 0
                           (no_member_named_type "boost::asio::handler_type")))))
             eq_refl).
  - exact (proj2 (proj2 (proj2 (proj2 (older_construction_diagnostic Example.plain_env
                           Example.int Example.signature (Example.caller Example.int) 0
                           (static_assertion_failed "Handler requirements not met")))))
             eq_refl).
Defined.

(** ** What a construction leaves in the store *)

Lemma newer_construct_summary env CT Sig st token done st' :
  Newer.construct env CT Sig st token = Ok (Some (done, st')) ->
  exists h r ext impl_,
    done = [("completion_handler", h); ("result", r)] /\
    st' = st ++ ext /\
    1 <= List.length ext <= 2 /\
    r = List.length st' - 1 /\
    List.length st <= r /\
    (h = token \/ h = List.length st /\ h < r) /\
    nth_error st' r = Some (beast_carrier impl_) /\
    bound_handler impl_ = h /\
    (forall a T src c, List.length st <= a ->
       nth_error st' a = Some (plain T (constructed_from src c)) ->
       a = h /\ h = List.length st /\ src = token /\ c = forwarded_as CT).
Proof.
  intros E.
  destruct (newer_construct_shape _ _ _ _ _ _ _ E) as (C & _ & _ & [S|S]);
    injection S as -> ->.
  - exists token, (List.length st), [async_result_ctor (Newer.handler_of C) token],
      (asio_async_result_ctor (Newer.handler_of C) token).
    rewrite length_app. cbn [Datatypes.length].
    repeat (split; [solve [reflexivity | lia | left; reflexivity]|]).
    split; [apply nth_error_fresh|]. split; [reflexivity|].
    intros a T src c La Ea.
    destruct (nth_error_one_past _ _ _ _ La Ea) as [_ I]. discriminate I.
  - exists (List.length st), (S (List.length st)),
      [plain (remove_reference (Newer.handler_of C))
         (constructed_from token (forwarded_as CT));
       async_result_ctor (Newer.handler_of C) (List.length st)],
      (asio_async_result_ctor (Newer.handler_of C) (List.length st)).
    rewrite length_app. cbn [Datatypes.length].
    repeat (split; [solve [reflexivity | lia | right; lia]|]).
    split; [apply nth_error_fresh_next|]. split; [reflexivity|].
    intros a T src c La Ea.
    destruct (nth_error_two_past _ _ _ _ _ La Ea) as [[-> I]|[_ I]];
      [|discriminate I].
    injection I as -> -> ->. auto.
Qed.

Lemma older_construct_summary env CT Sig st token done st' :
  Older.construct env CT Sig st token = Ok (Some (done, st')) ->
  exists h r ext impl_,
    done = [("handler", h); ("result", r)] /\
    st' = st ++ ext /\
    1 <= List.length ext <= 2 /\
    r = List.length st' - 1 /\
    List.length st <= r /\
    (h = token \/ h = List.length st /\ h < r) /\
    nth_error st' r = Some (asio_carrier impl_) /\
    bound_handler impl_ = h /\
    (forall a T src c, List.length st <= a ->
       nth_error st' a = Some (plain T (constructed_from src c)) ->
       a = h /\ h = List.length st /\ src = token /\ c = forwarded_as CT).
Proof.
  intros E.
  destruct (older_construct_shape _ _ _ _ _ _ _ E) as (C & _ & _ & [S|S]);
    injection S as -> ->.
  - exists token, (List.length st),
      [asio_carrier (asio_async_result_ctor (Older.handler_type C) token)],
      (asio_async_result_ctor (Older.handler_type C) token).
    rewrite length_app. cbn [Datatypes.length].
    repeat (split; [solve [reflexivity | lia | left; reflexivity]|]).
    split; [apply nth_error_fresh|]. split; [reflexivity|].
    intros a T src c La Ea.
    destruct (nth_error_one_past _ _ _ _ La Ea) as [_ I]. discriminate I.
  - exists (List.length st), (S (List.length st)),
      [plain (remove_reference (Older.handler_type C))
         (constructed_from token (forwarded_as CT));
       asio_carrier (asio_async_result_ctor (Older.handler_type C) (List.length st))],
      (asio_async_result_ctor (Older.handler_type C) (List.length st)).
    rewrite length_app. cbn [Datatypes.length].
    repeat (split; [solve [reflexivity | lia | right; lia]|]).
    split; [apply nth_error_fresh_next|]. split; [reflexivity|].
    intros a T src c La Ea.
    destruct (nth_error_two_past _ _ _ _ _ La Ea) as [[-> I]|[_ I]];
      [|discriminate I].
    injection I as -> -> ->. auto.
Qed.

(** X4.  A construction of the Binder, in either header, only adds to
    the store: one or two objects behind those of the caller, the
    carrier last.  Its members name objects of the new store, the
    handler member one that is older than the carrier. *)
Theorem construction_only_appends env CT Sig st token done st' :
  token < List.length st ->
  Newer.construct env CT Sig st token = Ok (Some (done, st')) \/
  Older.construct env CT Sig st token = Ok (Some (done, st')) ->
  exists ext, st' = st ++ ext /\ 1 <= List.length ext <= 2 /\
  forall name a, lookup name done = Some a ->
    a < List.length st' /\
    (name = "result" -> a = List.length st' - 1 /\ List.length st <= a) /\
    (name <> "result" -> a < List.length st' - 1).
Proof.
  intros Tok [E|E];
    [destruct (newer_construct_summary _ _ _ _ _ _ _ E)
       as (h & r & ext & impl_ & -> & -> & Le & Hr & Lr & Hh & _)
    |destruct (older_construct_summary _ _ _ _ _ _ _ E)
       as (h & r & ext & impl_ & -> & -> & Le & Hr & Lr & Hh & _)];
    exists ext; (split; [reflexivity|]); (split; [exact Le|]);
    rewrite length_app in *; intros name a L; simpl in L.
  - destruct (String.eqb name "completion_handler") eqn:N1.
    + apply String.eqb_eq in N1. injection L as <-. subst name.
      split; [lia|]. split; [discriminate|]. intros _. lia.
    + destruct (String.eqb name "result") eqn:N2; [|discriminate].
      apply String.eqb_eq in N2. injection L as <-. subst name.
      split; [lia|]. split; [intros _; lia|]. intros N. now elim N.
  - destruct (String.eqb name "handler") eqn:N1.
    + apply String.eqb_eq in N1. injection L as <-. subst name.
      split; [lia|]. split; [discriminate|]. intros _. lia.
    + destruct (String.eqb name "result") eqn:N2; [|discriminate].
      apply String.eqb_eq in N2. injection L as <-. subst name.
      split; [lia|]. split; [intros _; lia|]. intros N. now elim N.
Qed.

Lemma construction_only_appends_witness :
  exists ext,
    [plain Example.use_future_t caller_owned;
     plain Example.promise_handler (constructed_from 0 xvalue);
     async_result_ctor Example.promise_handler 1]
    = Example.caller Example.use_future_t ++ ext /\
    1 <= List.length ext <= 2 /\
    forall name a,
      lookup name [("completion_handler", 1); ("result", 2)] = Some a ->
      a < 3 /\ (name = "result" -> a = 2 /\ 1 <= a) /\ (name <> "result" -> a < 2).
Proof.
  exact (construction_only_appends Example.future_env Example.use_future_t
           Example.signature (Example.caller Example.use_future_t) 0
           [("completion_handler", 1); ("result", 2)]
           [plain Example.use_future_t caller_owned;
            plain Example.promise_handler (constructed_from 0 xvalue);
            async_result_ctor Example.promise_handler 1]
           (Nat.lt_0_succ 0) (or_introl eq_refl)).
Defined.

Lemma forwarded_as_xvalue CT :
  forwarded_as CT = xvalue ->
  (forall U, CT <> LRef U) /\ is_function (remove_reference CT) = false.
Proof.
  unfold forwarded_as, rref.
  destruct CT as [| | |U|U| |]; cbn;
    try (intros _; split; [discriminate|reflexivity]);
    try discriminate.
  destruct U; cbn; intros E; try discriminate E;
    (split; [discriminate|reflexivity]).
Qed.

(** X5.  In either header, an object that a construction of the Binder
    makes out of another is made out of the token, as
    [static_cast<CompletionToken&&>(token)] designates it.  It is made
    out of an rvalue, from which it may move, only when the token type
    is no lvalue reference and no function; for [CompletionToken = T&]
    it is made out of an lvalue. *)
Theorem token_is_moved_only_as_rvalue env CT Sig st token done st' a T src c :
  Newer.construct env CT Sig st token = Ok (Some (done, st')) \/
  Older.construct env CT Sig st token = Ok (Some (done, st')) ->
  List.length st <= a ->
  nth_error st' a = Some (plain T (constructed_from src c)) ->
  src = token /\ c = forwarded_as CT /\
  (c = xvalue -> (forall U, CT <> LRef U) /\ is_function (remove_reference CT) = false) /\
  (forall U, CT = LRef U -> c = lvalue).
Proof.
  intros E La Ea.
  assert (K : src = token /\ c = forwarded_as CT).
  { destruct E as [E|E];
      [destruct (newer_construct_summary _ _ _ _ _ _ _ E)
         as (h & r & ext & impl_ & _ & _ & _ & _ & _ & _ & _ & _ & New)
      |destruct (older_construct_summary _ _ _ _ _ _ _ E)
         as (h & r & ext & impl_ & _ & _ & _ & _ & _ & _ & _ & _ & New)];
      destruct (New a T src c La Ea) as (_ & _ & -> & ->); auto. }
  destruct K as [-> ->].
  split; [reflexivity|]. split; [reflexivity|]. split.
  - apply forwarded_as_xvalue.
  - intros U ->. reflexivity.
Qed.

Lemma token_is_moved_only_as_rvalue_witness :
  (0 = 0 /\ lvalue = forwarded_as (LRef Example.callback) /\
   (lvalue = xvalue ->
    (forall U, LRef Example.callback <> LRef U) /\
    is_function (remove_reference (LRef Example.callback)) = false) /\
   (forall U, LRef Example.callback = LRef U -> lvalue = lvalue)) /\
  (0 = 0 /\ xvalue = forwarded_as Example.use_future_t /\
   (xvalue = xvalue ->
    (forall U, Example.use_future_t <> LRef U) /\
    is_function (remove_reference Example.use_future_t) = false) /\
   (forall U, Example.use_future_t = LRef U -> xvalue = lvalue)).
Proof.
  split.
  - exact (token_is_moved_only_as_rvalue Example.plain_env (LRef Example.callback)
             Example.signature (Example.caller Example.callback) 0
             [("handler", 1); ("result", 2)]
             [plain Example.callback caller_owned;
              plain Example.callback (constructed_from 0 lvalue);
              asio_carrier (asio_async_result_ctor Example.callback 1)]
             1 Example.callback 0 lvalue
             (or_intror eq_refl) (le_n 1) eq_refl).
  - exact (token_is_moved_only_as_rvalue Example.future_env Example.use_future_t
             Example.signature (Example.caller Example.use_future_t) 0
             [("completion_handler", 1); ("result", 2)]
             [plain Example.use_future_t caller_owned;
              plain Example.promise_handler (constructed_from 0 xvalue);
              async_result_ctor Example.promise_handler 1]
             1 Example.promise_handler 0 xvalue
             (or_introl eq_refl) (le_n 1) eq_refl).
Defined.

(** ** Two Binders *)

Lemma nth_error_prefix {A : Type} (l ext : list A) a :
  a < List.length l -> nth_error (l ++ ext) a = nth_error l a.
Proof. intros L. now apply nth_error_app1. Qed.

(** X6.  Of two Binders constructed one after the other from tokens of
    the caller, in either header, each has a carrier of its own, and
    the first carrier is still the object it was, bound to the first
    handler, after the second construction.  The two handler members
    name one object only when each names the token it was given, the
    same token for both. *)
Theorem successive_binders_are_independent
    env CT1 Sig1 CT2 Sig2 st t1 t2 done1 st1 done2 st2 :
  t1 < List.length st -> t2 < List.length st ->
  (Newer.construct env CT1 Sig1 st t1 = Ok (Some (done1, st1)) /\
   Newer.construct env CT2 Sig2 st1 t2 = Ok (Some (done2, st2)) \/
   Older.construct env CT1 Sig1 st t1 = Ok (Some (done1, st1)) /\
   Older.construct env CT2 Sig2 st1 t2 = Ok (Some (done2, st2))) ->
  exists h1 r1 h2 r2 c1 impl_,
    map snd done1 = [h1; r1] /\ map snd done2 = [h2; r2] /\
    r1 < r2 /\
    nth_error st1 r1 = Some c1 /\ nth_error st2 r1 = Some c1 /\
    (c1 = beast_carrier impl_ \/ c1 = asio_carrier impl_) /\
    bound_handler impl_ = h1 /\
    (h1 = h2 -> h1 = t1 /\ h2 = t2 /\ t1 = t2).
Proof.
  intros T1 T2 [[E1 E2]|[E1 E2]].
  - destruct (newer_construct_summary _ _ _ _ _ _ _ E1)
      as (h1 & r1 & ext1 & i1 & -> & -> & L1 & R1 & B1 & H1 & C1 & I1 & _).
    destruct (newer_construct_summary _ _ _ _ _ _ _ E2)
      as (h2 & r2 & ext2 & i2 & -> & -> & L2 & R2 & B2 & H2 & _).
    rewrite !length_app in *.
    exists h1, r1, h2, r2, (beast_carrier i1), i1.
    split; [reflexivity|]. split; [reflexivity|]. split; [lia|].
    split; [exact C1|]. split.
    { rewrite nth_error_prefix; [exact C1 | rewrite length_app; lia]. }
    split; [left; reflexivity|]. split; [exact I1|].
    intros Eh. destruct H1 as [?|[? ?]], H2 as [?|[? ?]]; repeat split; lia.
  - destruct (older_construct_summary _ _ _ _ _ _ _ E1)
      as (h1 & r1 & ext1 & i1 & -> & -> & L1 & R1 & B1 & H1 & C1 & I1 & _).
    destruct (older_construct_summary _ _ _ _ _ _ _ E2)
      as (h2 & r2 & ext2 & i2 & -> & -> & L2 & R2 & B2 & H2 & _).
    rewrite !length_app in *.
    exists h1, r1, h2, r2, (asio_carrier i1), i1.
    split; [reflexivity|]. split; [reflexivity|]. split; [lia|].
    split; [exact C1|]. split.
    { rewrite nth_error_prefix; [exact C1 | rewrite length_app; lia]. }
    split; [right; reflexivity|]. split; [exact I1|].
    intros Eh. destruct H1 as [?|[? ?]], H2 as [?|[? ?]]; repeat split; lia.
Qed.

Lemma successive_binders_are_independent_witness :
  exists h1 r1 h2 r2 c1 impl_,
    map snd [("completion_handler", 0); ("result", 1)] = [h1; r1] /\
    map snd [("completion_handler", 0); ("result", 2)] = [h2; r2] /\
    r1 < r2 /\
    nth_error [plain Example.callback caller_owned;
               async_result_ctor Example.callback 0] r1 = Some c1 /\
    nth_error [plain Example.callback caller_owned;
               async_result_ctor Example.callback 0;
               async_result_ctor Example.callback 0] r1 = Some c1 /\
    (c1 = beast_carrier impl_ \/ c1 = asio_carrier impl_) /\
    bound_handler impl_ = h1 /\
    (h1 = h2 -> h1 = 0 /\ h2 = 0 /\ 0 = 0).
Proof.
  exact (successive_binders_are_independent Example.plain_env
           Example.callback Example.signature Example.callback Example.signature
           (Example.caller Example.callback) 0 0
           [("completion_handler", 0); ("result", 1)]
           [plain Example.callback caller_owned;
            async_result_ctor Example.callback 0]
           [("completion_handler", 0); ("result", 2)]
           [plain Example.callback caller_owned;
            async_result_ctor Example.callback 0;
            async_result_ctor Example.callback 0]
           (Nat.lt_0_succ 0) (Nat.lt_0_succ 0)
           (or_introl (conj eq_refl eq_refl))).
Defined.

(** ** The type of the handler that a Binder exposes *)

(** X7.  The object that the handler member of a constructed Binder
    names has the type the header resolves for the handler, when that
    is an object type: in the revised header [BEAST_HANDLER_TYPE] of
    the token type, for a token object of the type the constructor's
    parameter refers to; in the older header
    [async_completion::handler_type]. *)
Theorem exposed_handler_has_the_handler_type env CT Sig st token done st' :
  (Newer.construct env CT Sig st token = Ok (Some (done, st')) ->
   forall o H,
     nth_error st token = Some (plain (remove_reference CT) o) ->
     Newer.BEAST_HANDLER_TYPE env CT Sig = Ok H ->
     is_reference H = false ->
     exists h o',
       lookup "completion_handler" done = Some h /\
       nth_error st' h = Some (plain H o')) /\
  (Older.construct env CT Sig st token = Ok (Some (done, st')) ->
   forall C,
     Older.async_completion env CT Sig = Ok C ->
     is_reference (Older.handler_type C) = false ->
     exists h o',
       lookup "handler" done = Some h /\
       nth_error st' h = Some (plain (Older.handler_type C) o')).
Proof.
  split; intros E.
  - intros o H Tok M NR.
    destruct (newer_construct_shape _ _ _ _ _ _ _ E) as (C & HC & Run & _).
    rewrite (newer_run_constructor _ _ _ _ st token HC) in Run.
    destruct (newer_async_completion_ok _ _ _ _ HC) as [HA _].
    unfold Newer.BEAST_HANDLER_TYPE in M. rewrite HA in M. simpl in M.
    injection M as M. fold (Newer.handler_of C) in M. rewrite M in Run.
    rewrite NR in Run.
    destruct (is_same CT H) eqn:Same; injection Run as <- <-.
    + apply is_same_true in Same.
      exists token, o. split; [reflexivity|].
      rewrite nth_error_prefix
        by (apply nth_error_Some; rewrite Tok; discriminate).
      rewrite Tok. rewrite Same at 1.
      destruct H; try discriminate NR; reflexivity.
    + exists (List.length st), (constructed_from token (forwarded_as CT)).
      split; [reflexivity|].
      rewrite (remove_reference_object _ NR). apply nth_error_fresh.
  - intros C HC NR.
    destruct (older_construct_shape _ _ _ _ _ _ _ E) as (C' & HC' & Run & _).
    rewrite HC in HC'. injection HC' as <-.
    rewrite (older_run_constructor _ _ _ _ st token HC), NR in Run.
    injection Run as <- <-.
    exists (List.length st), (constructed_from token (forwarded_as CT)).
    split; [reflexivity|].
    rewrite (remove_reference_object _ NR). apply nth_error_fresh.
Qed.

Lemma exposed_handler_has_the_handler_type_witness :
  (exists h o',
     lookup "completion_handler" [("completion_handler", 0); ("result", 1)] = Some h /\
     nth_error [plain Example.callback caller_owned;
                async_result_ctor Example.callback 0] h
       = Some (plain Example.callback o')) /\
  (exists h o',
     lookup "handler" [("handler", 1); ("result", 2)] = Some h /\
     nth_error [plain Example.use_future_t caller_owned;
                plain Example.promise_handler (constructed_from 0 lvalue);
                asio_carrier (asio_async_result_ctor Example.promise_handler 1)] h
       = Some (plain Example.promise_handler o')).
Proof.
  split.
  - exact (proj1 (exposed_handler_has_the_handler_type Example.plain_env
                    Example.callback Example.signature
                    (Example.caller Example.callback) 0
                    [("completion_handler", 0); ("result", 1)]
                    [plain Example.callback caller_owned;
                     async_result_ctor Example.callback 0])
             eq_refl caller_owned Example.callback eq_refl eq_refl eq_refl).
  - exact (proj2 (exposed_handler_has_the_handler_type Example.future_env
                    (LRef Example.use_future_t) Example.signature
                    (Example.caller Example.use_future_t) 0
                    [("handler", 1); ("result", 2)]
                    [plain Example.use_future_t caller_owned;
                     plain Example.promise_handler (constructed_from 0 lvalue);
                     asio_carrier (asio_async_result_ctor Example.promise_handler 1)])
             eq_refl _ eq_refl eq_refl).
Defined.

(** ** Which tokens are borrowed *)

(** X8.  With Boost's primary templates selected for the decayed token
    type [T], and [T] a completion handler for the signature, the
    revised Binder is constructed for every token type that is [T] or
    decays to [T] and from whose forwarded token a [T] can be
    initialised; its handler member names the caller's token exactly
    when the token type is [T] itself.  For [T&], [T&&], [const T] and
    the like the handler is a new [T] made out of the forwarded
    token. *)
Theorem plain_handler_is_borrowed_iff_decayed sp invocable T CT Sig st token :
  boost_asio.primary sp T Sig = true ->
  invocable T Sig = true ->
  decay CT = T ->
  CT = T \/ initializable (boost_asio.env sp invocable) T (rref CT) = true ->
  token < List.length st ->
  exists done st',
    Newer.construct (boost_asio.env sp invocable) CT Sig st token
      = Ok (Some (done, st')) /\
    (lookup "completion_handler" done = Some token <-> CT = T) /\
    (CT <> T ->
     lookup "completion_handler" done = Some (List.length st) /\
     nth_error st' (List.length st)
       = Some (plain T (constructed_from token (forwarded_as CT)))).
Proof.
  intros P I D K Tok. set (env := boost_asio.env sp invocable) in *.
  destruct (primary_async_result sp invocable _ _ P) as ((A & HA & HT & _) & _).
  fold env in HA.
  destruct (primary_inv _ _ _ P) as (NR & _ & _).
  assert (HC : exists C, Newer.async_completion env CT Sig = Ok C /\
                         Newer.handler_of C = T).
  { unfold Newer.async_completion. rewrite D, HA. simpl.
    eexists; split; [reflexivity|]. exact HT. }
  destruct HC as (C & HC & HH).
  rewrite (construct_newer_unfold _ _ _ st token _ HC), HH.
  change (is_CompletionHandler env T Sig) with (invocable T Sig). rewrite I.
  rewrite (newer_run_constructor _ _ _ _ st token HC), HH, NR.
  destruct (is_same CT T) eqn:Same; simpl.
  - apply is_same_true in Same. do 2 eexists. split; [reflexivity|].
    split; [split; auto|]. intros N. now elim N.
  - apply is_same_false in Same. destruct K as [K|K]; [now elim Same|].
    rewrite K. do 2 eexists. split; [reflexivity|].
    split.
    + split; [|intros E; now elim Same].
      simpl. intros E. injection E as E. lia.
    + intros _. split; [reflexivity|].
      rewrite (remove_reference_object _ NR). apply nth_error_fresh.
Qed.

Lemma plain_handler_is_borrowed_iff_decayed_witness :
  exists done st',
    Newer.construct Example.plain_env (add_const Example.callback) Example.signature
      (Example.caller (add_const Example.callback)) 0
      = Ok (Some (done, st')) /\
    (lookup "completion_handler" done = Some 0 <->
     add_const Example.callback = Example.callback) /\
    (add_const Example.callback <> Example.callback ->
     lookup "completion_handler" done = Some 1 /\
     nth_error st' 1
       = Some (plain Example.callback
                 (constructed_from 0 (forwarded_as (add_const Example.callback))))).
Proof.
  exact (plain_handler_is_borrowed_iff_decayed boost_asio.none Example.invocable
           Example.callback (add_const Example.callback) Example.signature
           (Example.caller (add_const Example.callback)) 0
           eq_refl eq_refl eq_refl (or_intror eq_refl) (Nat.lt_0_succ 0)).
Defined.
